(** * Personal Expense Tracker: a shallow embedding of [expense_tracker.py]

    The development follows the source file top to bottom: the Python values
    the tracker stores, the library calls it relies on ([strptime],
    [str.lower], [sorted], [csv.DictReader], [csv.DictWriter]), then the
    methods of [ExpenseTracker], and finally the properties.

    Modelling conventions.
    - Text is a [string] of bytes; the patterns [\d] of [strptime] are read
      as the ASCII digits.
    - An amount (a Python [float]) is an exact rational [Q]: binary rounding,
      [inf] and [nan] are outside the model.
    - A raised exception is a value [Raise e] of the type [res].
    - [input()] reads from a list of pending lines and raises [EOFError]
      when the list is exhausted; printed text is returned as data. *)

From Stdlib Require Import Ascii String NArith QArith Lia Lqa Sorting.Sorted.
From stdpp Require Import gmap strings list fin_maps.

Local Open Scope string_scope.
Local Open Scope list_scope.
Local Open Scope Z_scope.

(** ** Exceptions and results *)

Inductive exn : Type :=
  | KeyError
  | TypeError
  | ValueError
  | EOFError
  | OSError.

Inductive res (A : Type) : Type :=
  | Ok (a : A)
  | Raise (e : exn).

Arguments Ok {A} a.
Arguments Raise {A} e.

Definition bind {A B : Type} (x : res A) (f : A -> res B) : res B :=
  match x with
  | Ok a => f a
  | Raise e => Raise e
  end.

Notation "'let*' x ':=' c 'in' k" := (bind c (fun x => k))
  (at level 10, x pattern, c at level 100, k at level 200).

(** ** Dates: [datetime.datetime.strptime] for the two formats in use *)

Module Dates.

Record date : Type := mkdate { year : Z; month : Z; day : Z }.

Definition is_leap (y : Z) : bool :=
  (y mod 4 =? 0) && (negb (y mod 100 =? 0) || (y mod 400 =? 0)).

Definition days_in_month (y m : Z) : Z :=
  if m =? 2 then (if is_leap y then 29 else 28)
  else if (m =? 4) || (m =? 6) || (m =? 9) || (m =? 11) then 30
  else 31.

(** [datetime.date(y, m, d)]: [ValueError] outside MINYEAR..MAXYEAR, 1..12
    and the length of the month. *)
Definition make_date (y m d : Z) : res date :=
  if (1 <=? y) && (y <=? 9999) && (1 <=? m) && (m <=? 12)
     && (1 <=? d) && (d <=? days_in_month y m)
  then Ok (mkdate y m d)
  else Raise ValueError.

Definition digit (c : ascii) : option Z :=
  let n := Z.of_nat (nat_of_ascii c) in
  if (48 <=? n) && (n <=? 57) then Some (n - 48) else None.

Definition in_range (lo hi : Z) (c : ascii) : option Z :=
  match digit c with
  | Some d => if (lo <=? d) && (d <=? hi) then Some d else None
  | None => None
  end.

Definition dash : ascii := "-"%char.
Definition space : ascii := " "%char.

(** A directive of the format is a regular expression with alternatives; an
    alternative that matches a prefix yields the converted number and the
    text that is left. The lists below keep the order of the alternatives in
    the pattern, which is the order in which [re.match] tries them. *)
Definition alts : Type := list (Z * list ascii).

(** [%Y] is [\d\d\d\d]. *)
Definition dir_Y (s : list ascii) : alts :=
  match s with
  | a :: b :: c :: d :: rest =>
      match digit a, digit b, digit c, digit d with
      | Some a, Some b, Some c, Some d => [(1000 * a + 100 * b + 10 * c + d, rest)]
      | _, _, _, _ => []
      end
  | _ => []
  end.

Definition two (p q : ascii -> option Z) (s : list ascii) : alts :=
  match s with
  | a :: b :: rest =>
      match p a, q b with
      | Some a, Some b => [(10 * a + b, rest)]
      | _, _ => []
      end
  | _ => []
  end.

Definition one (p : ascii -> option Z) (s : list ascii) : alts :=
  match s with
  | a :: rest =>
      match p a with
      | Some a => [(a, rest)]
      | None => []
      end
  | _ => []
  end.

Definition blank_one (p : ascii -> option Z) (s : list ascii) : alts :=
  match s with
  | a :: rest => if Ascii.eqb a space then one p rest else []
  | _ => []
  end.

(** [%m] is [1[0-2]|0[1-9]|[1-9]]. *)
Definition dir_m (s : list ascii) : alts :=
  two (in_range 1 1) (in_range 0 2) s
  ++ two (in_range 0 0) (in_range 1 9) s
  ++ one (in_range 1 9) s.

(** [%d] is [3[0-1]|[1-2]\d|0[1-9]|[1-9]| [1-9]]. *)
Definition dir_d (s : list ascii) : alts :=
  two (in_range 3 3) (in_range 0 1) s
  ++ two (in_range 1 2) digit s
  ++ two (in_range 0 0) (in_range 1 9) s
  ++ one (in_range 1 9) s
  ++ blank_one (in_range 1 9) s.

(** Backtracking: the first alternative after which the rest of the pattern
    matches. *)
Fixpoint first_match {B : Type} (l : alts) (k : Z -> list ascii -> option B) : option B :=
  match l with
  | [] => None
  | (n, rest) :: l' =>
      match k n rest with
      | Some b => Some b
      | None => first_match l' k
      end
  end.

Definition lit (c : ascii) {B : Type} (s : list ascii) (k : list ascii -> option B) : option B :=
  match s with
  | a :: rest => if Ascii.eqb a c then k rest else None
  | [] => None
  end.

(** The end of the pattern: the match is found, whatever text follows. *)
Definition found {B : Type} (b : B) (rest : list ascii) : option (B * list ascii) :=
  Some (b, rest).

(** [strptime(s, '%Y-%m-%d')]: no match, text left over after the match, or
    a date that does not exist all raise [ValueError]. *)
Definition strptime_Ymd (s : string) : res date :=
  match
    first_match (dir_Y (list_ascii_of_string s)) (fun y s1 =>
    lit dash s1 (fun s2 =>
    first_match (dir_m s2) (fun m s3 =>
    lit dash s3 (fun s4 =>
    first_match (dir_d s4) (fun d s5 => found (y, m, d) s5)))))
  with
  | Some ((y, m, d), []) => make_date y m d
  | _ => Raise ValueError
  end.

(** [strptime(s, '%m-%Y')]; the day defaults to 1. *)
Definition strptime_mY (s : string) : res date :=
  match
    first_match (dir_m (list_ascii_of_string s)) (fun m s1 =>
    lit dash s1 (fun s2 =>
    first_match (dir_Y s2) (fun y s3 => found (y, m) s3)))
  with
  | Some ((y, m), []) => make_date y m 1
  | _ => Raise ValueError
  end.

Definition digit_char (n : Z) : ascii := ascii_of_nat (Z.to_nat (48 + n mod 10)).

Definition pad2 (n : Z) : list ascii := [digit_char (n / 10); digit_char n].

Definition pad4 (n : Z) : list ascii :=
  [digit_char (n / 1000); digit_char (n / 100); digit_char (n / 10); digit_char n].

(** [d.strftime('%Y-%m-%d')] for a date of four-digit year. *)
Definition strftime_Ymd (d : date) : string :=
  string_of_list_ascii (pad4 (year d) ++ [dash] ++ pad2 (month d) ++ [dash] ++ pad2 (day d)).

End Dates.

Import Dates.

(** ** Text helpers: [str.lower], [str.strip] *)

Definition lower_char (c : ascii) : ascii :=
  let n := nat_of_ascii c in
  if ((65 <=? n) && (n <=? 90))%nat then ascii_of_nat (n + 32) else c.

Definition upper_char (c : ascii) : ascii :=
  let n := nat_of_ascii c in
  if ((97 <=? n) && (n <=? 122))%nat then ascii_of_nat (n - 32) else c.

Fixpoint lower (s : string) : string :=
  match s with
  | EmptyString => EmptyString
  | String c s' => String (lower_char c) (lower s')
  end.

(** The white space of [str.strip] among the ASCII characters: tab, line
    feed, vertical tab, form feed, carriage return, the separators 28..31
    and the blank. *)
Definition is_space (c : ascii) : bool :=
  let n := nat_of_ascii c in
  (((9 <=? n) && (n <=? 13)) || ((28 <=? n) && (n <=? 32)))%nat.

Fixpoint lstrip (s : list ascii) : list ascii :=
  match s with
  | c :: s' => if is_space c then lstrip s' else s
  | [] => []
  end.

Definition strip (s : string) : string :=
  string_of_list_ascii (rev (lstrip (rev (lstrip (list_ascii_of_string s))))).

(** ** [input()] *)

(** The lines still to be typed; [input()] takes the first one. *)
Definition stdin : Type := list string.

Definition input (ins : stdin) : res (string * stdin) :=
  match ins with
  | [] => Raise EOFError
  | l :: rest => Ok (l, rest)
  end.

(** ** Python values and expense records *)

(** What a cell of an expense dictionary can hold: text, a number (the
    amount), or [None] (the [restval] of [csv.DictReader] for a short row). *)
Inductive value : Type :=
  | VStr (s : string)
  | VNum (q : Q)
  | VNone.

(** An expense is a [dict]. Its keys are field names; [csv.DictReader] adds
    the key [None] (its [restkey]) holding the surplus cells of a long row,
    kept here as [rest]. *)
Record expense : Type := mkexpense {
  fields : gmap string value;
  rest : option (list string)
}.

(** [k in e] *)
Definition has (k : string) (e : expense) : bool :=
  match fields e !! k with
  | Some _ => true
  | None => false
  end.

(** [e[k]] *)
Definition getitem (k : string) (e : expense) : res value :=
  match fields e !! k with
  | Some v => Ok v
  | None => Raise KeyError
  end.

(** Truth value of a cell in a condition. *)
Definition truthy (v : value) : bool :=
  match v with
  | VStr s => negb (String.eqb s "")
  | VNum q => negb (Qeq_bool q 0)
  | VNone => false
  end.

(** [a == b], as used for dictionary keys. *)
Definition value_eqb (a b : value) : bool :=
  match a, b with
  | VStr s, VStr t => String.eqb s t
  | VNum p, VNum q => Qeq_bool p q
  | VNone, VNone => true
  | _, _ => false
  end.

Definition Qlt_bool (a b : Q) : bool := negb (Qle_bool b a).

(** [a < b]: defined within text and within numbers only. *)
Definition value_ltb (a b : value) : res bool :=
  match a, b with
  | VStr s, VStr t => Ok (String.ltb s t)
  | VNum p, VNum q => Ok (Qlt_bool p q)
  | _, _ => Raise TypeError
  end.

Definition fieldnames : list string := ["date"; "category"; "amount"; "description"].

(** The dictionary literal built by [add_expense]. *)
Definition new_expense (date_str category : string) (amount : Q) (description : string) : expense :=
  mkexpense
    (<["description" := VStr description]>
     (<["amount" := VNum amount]>
      (<["category" := VStr category]>
       (<["date" := VStr date_str]> ∅))))
    None.

(** The cells a record reachable by [add_expense] and [load_expenses] holds:
    a number under [amount], text or [None] elsewhere. *)
Definition typed_value (k : string) (v : value) : bool :=
  match v with
  | VNum _ => String.eqb k "amount"
  | _ => negb (String.eqb k "amount")
  end.

Definition typed (e : expense) : bool :=
  forallb (fun kv => typed_value (fst kv) (snd kv)) (map_to_list (fields e)).

(** ** [sorted(xs, key=f, reverse=True)] *)

Fixpoint mapM {A B : Type} (f : A -> res B) (l : list A) : res (list B) :=
  match l with
  | [] => Ok []
  | x :: l' =>
      let* y := f x in
      let* ys := mapM f l' in
      Ok (y :: ys)
  end.

Section Sorted.
Context {K A : Type}.
Variable lt : K -> K -> res bool.

(** [x] stood before every element of [l] in the input: it stays in front
    of the first element whose key is not greater. *)
Fixpoint insert_desc (x : K * A) (l : list (K * A)) : res (list (K * A)) :=
  match l with
  | [] => Ok [x]
  | y :: l' =>
      let* b := lt (fst x) (fst y) in
      if b then (let* r := insert_desc x l' in Ok (y :: r))
      else Ok (x :: y :: l')
  end.

(** A stable sort into descending order of the keys, with the comparison
    [<] only. *)
Fixpoint sort_desc (l : list (K * A)) : res (list (K * A)) :=
  match l with
  | [] => Ok []
  | x :: l' =>
      let* s := sort_desc l' in
      insert_desc x s
  end.

Definition sorted_reverse (key : A -> res K) (xs : list A) : res (list A) :=
  let* keyed := mapM (fun x => let* k := key x in Ok (k, x)) xs in
  let* s := sort_desc keyed in
  Ok (map snd s).
End Sorted.

(** ** The tracker *)

Record tracker : Type := mktracker {
  expenses : list expense;
  budget : option Q
}.

(** [sum(e['amount'] for e in es if 'amount' in e)]: the built-in starts
    from 0 and adds from the left; adding text or [None] to a number is a
    [TypeError]. *)
Definition add_value (acc : Q) (v : value) : res Q :=
  match v with
  | VNum q => Ok (acc + q)%Q
  | _ => Raise TypeError
  end.

Fixpoint sum_from (acc : Q) (es : list expense) : res Q :=
  match es with
  | [] => Ok acc
  | e :: es' =>
      match fields e !! "amount" with
      | Some v =>
          let* acc' := add_value acc v in
          sum_from acc' es'
      | None => sum_from acc es'
      end
  end.

Definition sum_amounts (es : list expense) : res Q := sum_from 0%Q es.

(** *** [view_expenses] *)

Inductive line : Type :=
  | Shown (e : expense)
  | Incomplete.

Inductive view : Type :=
  | NoExpenses
  | Listing (rows : list line) (total : Q).

(** The format specifications [:<12], [:<15] and [:<30] apply to text and to
    numbers and raise on [None]; [:<9.2f] applies to numbers only. *)
Definition format_text (v : value) : res unit :=
  match v with
  | VNone => Raise TypeError
  | _ => Ok tt
  end.

Definition format_fixed (v : value) : res unit :=
  match v with
  | VNum _ => Ok tt
  | VStr _ => Raise ValueError
  | VNone => Raise TypeError
  end.

Definition show_line (e : expense) : res line :=
  if forallb (fun k => has k e) fieldnames then
    let* d := getitem "date" e in
    let* _ := format_text d in
    let* c := getitem "category" e in
    let* _ := format_text c in
    let* a := getitem "amount" e in
    let* _ := format_fixed a in
    let* s := getitem "description" e in
    let* _ := format_text s in
    Ok (Shown e)
  else Ok Incomplete.

Definition view_expenses (t : tracker) : res view :=
  match expenses t with
  | [] => Ok NoExpenses
  | _ =>
      let* sorted_expenses := sorted_reverse value_ltb (getitem "date") (expenses t) in
      let* rows := mapM show_line sorted_expenses in
      let* total := sum_amounts (expenses t) in
      Ok (Listing rows total)
  end.

(** *** [track_budget]: the computation after the period is known *)

(** The body of the filtering loop for one expense: is it appended to
    [monthly_expenses]? [strptime] raises [TypeError] on a value that is not
    text, which the handler for [ValueError] does not catch. *)
Definition in_month (y m : Z) (e : expense) : res bool :=
  match fields e !! "date" with
  | Some v =>
      if truthy v then
        match v with
        | VStr s =>
            match strptime_Ymd s with
            | Ok d => Ok ((year d =? y) && (month d =? m))
            | Raise ValueError => Ok false
            | Raise x => Raise x
            end
        | _ => Raise TypeError
        end
      else Ok false
  | None => Ok false
  end.

Fixpoint monthly_expenses (y m : Z) (es : list expense) : res (list expense) :=
  match es with
  | [] => Ok []
  | e :: es' =>
      let* keep := in_month y m e in
      let* tl := monthly_expenses y m es' in
      Ok (if keep then e :: tl else tl)
  end.

(** [categories], a [dict] in insertion order: a key that is already there
    keeps its place. *)
Definition categories : Type := list (value * Q).

Fixpoint cat_get (c : value) (d : categories) : option Q :=
  match d with
  | [] => None
  | (k, v) :: d' => if value_eqb c k then Some v else cat_get c d'
  end.

Fixpoint cat_set (c : value) (x : Q) (d : categories) : categories :=
  match d with
  | [] => [(c, x)]
  | (k, v) :: d' => if value_eqb c k then (k, x) :: d' else (k, v) :: cat_set c x d'
  end.

(** [categories[cat] = categories.get(cat, 0) + expense['amount']] *)
Definition cat_add (e : expense) (d : categories) : res categories :=
  match fields e !! "category", fields e !! "amount" with
  | Some c, Some a =>
      let* x := add_value (default 0%Q (cat_get c d)) a in
      Ok (cat_set c x d)
  | _, _ => Ok d
  end.

Fixpoint cat_loop (es : list expense) (d : categories) : res categories :=
  match es with
  | [] => Ok d
  | e :: es' =>
      let* d' := cat_add e d in
      cat_loop es' d'
  end.

Definition percentage (amount b : Q) : Q :=
  if Qlt_bool 0 b then (amount / b * 100)%Q else 0%Q.

(** One printed line of the category table. *)
Record share : Type := mkshare {
  label : value;
  spent : Q;
  percent : Q
}.

Record report : Type := mkreport {
  period : Z * Z;
  monthly : list expense;
  total_spent : Q;
  remaining : Q;
  exceeded : bool;
  by_category : list share
}.

Definition summarize (es : list expense) (y m : Z) (b : Q) : res report :=
  let* monthly := monthly_expenses y m es in
  let* total := sum_amounts monthly in
  let remaining := (b - total)%Q in
  let* cats := cat_loop monthly [] in
  let* ordered :=
    sorted_reverse (fun p q => Ok (Qlt_bool p q)) (fun kv : value * Q => Ok (snd kv)) cats in
  Ok (mkreport (y, m) monthly total remaining (Qlt_bool remaining 0)
        (map (fun kv => mkshare (fst kv) (snd kv) (percentage (snd kv) b)) ordered)).

(** The prompt loop of [track_budget] for a specific month: a line that
    [strptime] rejects prints the hint and the prompt comes again. *)
Fixpoint read_month_year (ins : stdin) : res (Z * Z * stdin) :=
  match ins with
  | [] => Raise EOFError
  | month_year :: ins' =>
      match strptime_mY month_year with
      | Ok d => Ok (year d, month d, ins')
      | Raise ValueError => read_month_year ins'
      | Raise x => Raise x
      end
  end.

(** Lines 125 to 141: the period to track. *)
Definition resolve_period (choice : string) (now : date) (ins : stdin) : res (Z * Z * stdin) :=
  if String.eqb choice "2" then read_month_year ins
  else Ok (year now, month now, ins).

(** ** Storage *)

(** A file is absent, present but refused by [open], or holds a content. *)
Inductive file (A : Type) : Type :=
  | Absent
  | Denied
  | Holds (c : A).

Arguments Absent {A}.
Arguments Denied {A}.
Arguments Holds {A} c.

(** The text layer of the [csv] module (separators, quoting, line ends) is
    not modelled: [expenses.csv] holds the rows of cells that [csv.writer]
    was given, and [csv.reader] yields them back. *)
Definition table : Type := list (list string).

Record disk : Type := mkdisk {
  expenses_csv : file table;
  budget_txt : file string
}.

(** [csv.DictReader.__next__] for one row, given the header: [zip] pairs
    names and cells (a later duplicate name wins), missing cells are [None],
    surplus cells go under the key [None]. *)
Fixpoint zip_cells (names : list string) (cells : list string) (d : gmap string value)
  : gmap string value :=
  match names, cells with
  | k :: names', c :: cells' => zip_cells names' cells' (<[k := VStr c]> d)
  | k :: names', [] => zip_cells names' [] (<[k := VNone]> d)
  | [], _ => d
  end.

Definition dict_row (names cells : list string) : expense :=
  mkexpense (zip_cells names cells ∅)
    (if (length names <? length cells)%nat then Some (drop (length names) cells) else None).

(** [rowdict.keys() - self.fieldnames] of [csv.DictWriter] is not empty. *)
Definition wrong_fields (e : expense) : bool :=
  negb (forallb (fun kv => bool_decide (fst kv ∈ fieldnames)) (map_to_list (fields e)))
  || bool_decide (is_Some (rest e)).

(** ** The methods that parse and print numbers *)

Section Tracker.

(** [float(s)]: [None] stands for [ValueError]. *)
Variable float_of_string : string -> option Q.

(** [str(x)] for a number [x]. *)
Variable str_of_float : Q -> string.

(** *** [add_expense] *)

Fixpoint read_date (now : date) (ins : stdin) : res (string * stdin) :=
  match ins with
  | [] => Raise EOFError
  | date_str :: ins' =>
      if String.eqb (lower date_str) "today" then Ok (strftime_Ymd now, ins')
      else
        match strptime_Ymd date_str with
        | Ok _ => Ok (date_str, ins')
        | Raise ValueError => read_date now ins'
        | Raise x => Raise x
        end
  end.

(** The loop shared by the amount of [add_expense] and by [set_budget]:
    text that is no number, and a number that is not positive, are both
    refused and the prompt comes again. *)
Fixpoint read_positive (ins : stdin) : res (Q * stdin) :=
  match ins with
  | [] => Raise EOFError
  | amount_str :: ins' =>
      match float_of_string amount_str with
      | Some amount =>
          if Qle_bool amount 0 then read_positive ins' else Ok (amount, ins')
      | None => read_positive ins'
      end
  end.

Definition add_expense (now : date) (t : tracker) (ins : stdin) : res (tracker * stdin) :=
  let* (date_str, ins) := read_date now ins in
  let* (category, ins) := input ins in
  let* (amount, ins) := read_positive ins in
  let* (description, ins) := input ins in
  Ok (mktracker (expenses t ++ [new_expense date_str category amount description]) (budget t),
      ins).

(** *** [set_budget] *)

Definition set_budget (t : tracker) (ins : stdin) : res (tracker * stdin) :=
  let* (b, ins) := read_positive ins in
  Ok (mktracker (expenses t) (Some b), ins).

(** *** [track_budget] *)

Definition track_budget (now : date) (t : tracker) (ins : stdin)
  : res (tracker * stdin * option report) :=
  match budget t with
  | None =>
      let* (t', ins) := set_budget t ins in
      Ok (t', ins, None)
  | Some b =>
      let* (choice, ins) := input ins in
      let* (y, m, ins) := resolve_period choice now ins in
      let* r := summarize (expenses t) y m b in
      Ok (t, ins, Some r)
  end.

(** *** [save_expenses] and [save_budget] *)

(** What [csv.writer] writes for a cell. *)
Definition cell_text (v : value) : string :=
  match v with
  | VStr s => s
  | VNum q => str_of_float q
  | VNone => ""
  end.

(** [DictWriter._dict_to_list]: a key outside [fieldnames] raises
    [ValueError]; a missing field is written as the empty [restval]. *)
Definition dict_to_list (e : expense) : res (list string) :=
  if wrong_fields e then Raise ValueError
  else Ok (map (fun k => default "" (cell_text <$> fields e !! k)) fieldnames).

(** [writerows]: rows go to the file one by one, up to the first that
    raises. The flag tells whether all were written. *)
Fixpoint writerows (es : list expense) : list (list string) * bool :=
  match es with
  | [] => ([], true)
  | e :: es' =>
      match dict_to_list e with
      | Ok row => let '(rows, ok) := writerows es' in (row :: rows, ok)
      | Raise _ => ([], false)
      end
  end.

(** Returns the disk and whether the ["saved"] line was printed instead of
    the error line. *)
Definition save_expenses (t : tracker) (d : disk) : disk * bool :=
  match expenses_csv d with
  | Denied => (d, false)
  | _ =>
      let '(rows, ok) := writerows (expenses t) in
      (mkdisk (Holds (fieldnames :: rows)) (budget_txt d), ok)
  end.

Definition save_budget (t : tracker) (d : disk) : disk :=
  match budget t with
  | Some b =>
      match budget_txt d with
      | Denied => d
      | _ => mkdisk (expenses_csv d) (Holds (str_of_float b))
      end
  | None => d
  end.

(** *** [load_expenses] *)

(** The body of the reading loop for one row: convert the amount, if the
    header has that column. [float(None)] is a [TypeError]. *)
Definition convert_amount (row : expense) : res expense :=
  match fields row !! "amount" with
  | Some (VStr s) =>
      match float_of_string s with
      | Some q => Ok (mkexpense (<["amount" := VNum q]> (fields row)) (rest row))
      | None => Raise ValueError
      end
  | Some (VNum q) => Ok row
  | Some VNone => Raise TypeError
  | None => Ok row
  end.

(** The loop [for row in reader], appending to [self.expenses]: the rows
    appended so far, and the exception that stopped the loop, if any.
    [DictReader] passes over rows without cells. *)
Fixpoint read_rows (names : list string) (rows : table) (acc : list expense)
  : list expense * option exn :=
  match rows with
  | [] => (acc, None)
  | [] :: rows' => read_rows names rows' acc
  | cells :: rows' =>
      match convert_amount (dict_row names cells) with
      | Ok e => read_rows names rows' (acc ++ [e])
      | Raise x => (acc, Some x)
      end
  end.

Inductive loaded : Type :=
  | NoFile
  | LoadError
  | Loaded (n : nat).

Definition load_expenses (t : tracker) (d : disk) : tracker * loaded :=
  match expenses_csv d with
  | Absent => (t, NoFile)
  | Denied => (t, LoadError)
  | Holds rows =>
      let '(es, err) :=
        match rows with
        | [] => ([], None)
        | names :: rows' => read_rows names rows' []
        end in
      match err with
      | Some _ => (mktracker es (budget t), LoadError)
      | None =>
          match budget_txt d with
          | Holds txt =>
              (mktracker es (float_of_string (strip txt)), Loaded (length es))
          | Absent => (mktracker es None, Loaded (length es))
          | Denied => (mktracker es (budget t), LoadError)
          end
      end
  end.

(** [ExpenseTracker()] *)
Definition init (d : disk) : tracker := fst (load_expenses (mktracker [] None) d).

End Tracker.

(** *** [run]: one turn of the menu loop *)

Section Menu.

Variable float_of_string : string -> option Q.
Variable str_of_float : Q -> string.

(** The tracker, the disk and the pending input after the turn, and
    whether the loop goes on. *)
Definition turn (now : date) (t : tracker) (d : disk) (ins : stdin)
  : res (tracker * disk * stdin * bool) :=
  let* (choice, ins) := input ins in
  if String.eqb choice "1" then
    let* (t', ins) := add_expense float_of_string now t ins in
    Ok (t', d, ins, true)
  else if String.eqb choice "2" then
    let* _ := view_expenses t in
    Ok (t, d, ins, true)
  else if String.eqb choice "3" then
    let* (t', ins) := set_budget float_of_string t ins in
    Ok (t', save_budget str_of_float t' d, ins, true)
  else if String.eqb choice "4" then
    let* (t', ins, _) := track_budget float_of_string now t ins in
    Ok (t', d, ins, true)
  else if String.eqb choice "5" then
    Ok (t, save_budget str_of_float t (fst (save_expenses str_of_float t d)), ins, true)
  else if String.eqb choice "6" then
    Ok (t, save_budget str_of_float t (fst (save_expenses str_of_float t d)), ins, false)
  else Ok (t, d, ins, true).

(** The states the program goes through when started on the disk [d0]. *)
Inductive reachable (d0 : disk) : tracker -> disk -> Prop :=
  | reach_init : reachable d0 (init float_of_string d0) d0
  | reach_turn t d now ins t' d' ins' go :
      reachable d0 t d ->
      turn now t d ins = Ok (t', d', ins', go) ->
      reachable d0 t' d'.

End Menu.

(** ** A concrete reading of numbers, for the worked examples *)

(** [float] and [str] on plain decimal texts: an optional sign, digits and
    at most one point. A number is kept as an integer over a power of ten
    with at least one decimal and no further trailing zero, so that equal
    numbers are equal terms. The other texts that [float] reads (exponents,
    underscores, [inf], [nan]) are taken as no number here. *)
Module Decimal.

Fixpoint number_from (acc : Z) (l : list ascii) : option Z :=
  match l with
  | [] => Some acc
  | c :: l' =>
      match digit c with
      | Some d => number_from (10 * acc + d) l'
      | None => None
      end
  end.

Definition point : ascii := "."%char.
Definition zero : ascii := "0"%char.

Fixpoint split_point (l : list ascii) : list ascii * option (list ascii) :=
  match l with
  | [] => ([], None)
  | c :: l' =>
      if Ascii.eqb c point then ([], Some l')
      else let '(a, b) := split_point l' in (c :: a, b)
  end.

Fixpoint drop_zeros (l : list ascii) : list ascii :=
  match l with
  | c :: l' => if Ascii.eqb c zero then drop_zeros l' else l
  | [] => []
  end.

(** The decimals of a number, without trailing zeros but never empty. *)
Definition decimals (l : list ascii) : list ascii :=
  match rev (drop_zeros (rev l)) with
  | [] => [zero]
  | l' => l'
  end.

Definition unsigned (l : list ascii) : option Q :=
  let '(ip, fp) := split_point l in
  let fp := default [] fp in
  match ip ++ fp with
  | [] => None
  | _ =>
      let fp := decimals fp in
      match number_from 0 (ip ++ fp) with
      | Some n => Some (Qmake n (Pos.pow 10 (Pos.of_nat (length fp))))
      | None => None
      end
  end.

Definition float_of_string (s : string) : option Q :=
  match list_ascii_of_string (strip s) with
  | c :: l =>
      if Ascii.eqb c "-"%char then Qopp <$> unsigned l
      else if Ascii.eqb c "+"%char then unsigned l
      else unsigned (c :: l)
  | [] => None
  end.

Fixpoint digits_from (fuel : nat) (n : Z) (acc : list ascii) : list ascii :=
  match fuel with
  | O => acc
  | S fuel' =>
      if n <? 10 then digit_char n :: acc
      else digits_from fuel' (n / 10) (digit_char n :: acc)
  end.

Definition digits_of (n : Z) : list ascii := digits_from (Z.to_nat n + 1) n [].

Fixpoint count_decimals (fuel : nat) (d : positive) : nat :=
  match fuel with
  | O => O
  | S fuel' => if (Z.pos d <=? 1) then O else S (count_decimals fuel' (Z.to_pos (Z.pos d / 10)))
  end.

(** [str] of a number whose denominator is a power of ten. *)
Definition str_of_float (q : Q) : string :=
  let k := count_decimals 64 (Qden q) in
  let ds := digits_of (Z.abs (Qnum q)) in
  let ds := repeat zero (S k - length ds) ++ ds in
  let ip := take (length ds - k) ds in
  let fp := drop (length ds - k) ds in
  string_of_list_ascii
    ((if Qnum q <? 0 then ["-"%char] else []) ++ ip ++ [point] ++ (if (k =? 0)%nat then [zero] else fp)).

End Decimal.

(** ** Notions the properties are stated with *)

(** [s] spells the lower-case word [w], each letter in either case. *)
Fixpoint capitalisation (w s : string) : bool :=
  match w, s with
  | EmptyString, EmptyString => true
  | String a w', String b s' =>
      (Ascii.eqb b a || Ascii.eqb b (upper_char a)) && capitalisation w' s'
  | _, _ => false
  end.

Fixpoint split_dash (l : list ascii) : option (list ascii * list ascii) :=
  match l with
  | [] => None
  | c :: l' =>
      if Ascii.eqb c dash then Some ([], l')
      else
        match split_dash l' with
        | Some (a, b) => Some (c :: a, b)
        | None => None
        end
  end.

(** A month-year text: digits, a dash, digits, where the month has one of
    the given widths and lies in 1..12 and the year has four digits. The
    result is the year and the month that are written. *)
Definition month_year_text (widths : list nat) (s : string) : option (Z * Z) :=
  match split_dash (list_ascii_of_string s) with
  | Some (mt, yt) =>
      match Decimal.number_from 0 mt, Decimal.number_from 0 yt with
      | Some m, Some y =>
          if existsb (Nat.eqb (length mt)) widths && (length yt =? 4)%nat
             && (1 <=? m) && (m <=? 12)
          then Some (y, m)
          else None
      | _, _ => None
      end
  | None => None
  end.



(** The date of the expense is text that parses, as [%Y-%m-%d], to a date
    of the year [y] and the month [m]. *)
Definition date_in_month (y m : Z) (e : expense) : bool :=
  match fields e !! "date" with
  | Some (VStr s) =>
      match strptime_Ymd s with
      | Ok d => (year d =? y) && (month d =? m)
      | Raise _ => false
      end
  | _ => false
  end.






(** Text or [None]: what a cell other than the amount holds. *)
Definition is_text (v : value) : bool :=
  match v with
  | VNum _ => false
  | _ => true
  end.

(** The characters a date pattern tells apart. *)
Inductive char_class (c : ascii) : Prop :=
  | is_digit (d : Z) (Hd : digit c = Some d) (Hr : 0 <= d <= 9) (Hn : Ascii.eqb c dash = false)
  | is_dash (He : c = dash)
  | is_other (Hd : digit c = None) (Hn : Ascii.eqb c dash = false).

(** The year after the dash: what the pattern finds, what the digits spell,
    and whether there are four of them. *)
Inductive year_spec (m : Z) : option (Z * Z * list ascii) -> option Z -> bool -> Prop :=
  | year_exact y : year_spec m (Some (y, m, [])) (Some y) true
  | year_long y c r o : year_spec m (Some (y, m, c :: r)) o false
  | year_none_digits b : year_spec m None None b
  | year_none_short o : year_spec m None o false.

(** The check of [view_expenses]: all four fields are there. *)
Definition complete (e : expense) : bool := forallb (fun k => has k e) fieldnames.

(** An expense as [add_expense] creates it: the four fields and no other,
    text under [date], [category] and [description], a number under
    [amount]. *)
Definition is_record (e : expense) : bool :=
  negb (wrong_fields e)
  && match fields e !! "date", fields e !! "category",
           fields e !! "amount", fields e !! "description" with
     | Some (VStr _), Some (VStr _), Some (VNum _), Some (VStr _) => true
     | _, _, _, _ => false
     end.



Definition writable {A : Type} (f : file A) : bool :=
  match f with
  | Denied => false
  | _ => true
  end.

(** The budget is absent or strictly positive. *)
Definition budget_ok (t : tracker) : Prop :=
  match budget t with
  | Some b => (0 < b)%Q
  | None => True
  end.


(** *** Worked examples *)

Definition lunch : expense := new_expense "2025-08-01" "Food" (425 # 10) "lunch".
Definition bus : expense := new_expense "2025-08-15" "Transport" (100 # 10) "bus".

(** An expense without the [date] field. *)
Definition snack : expense :=
  mkexpense
    (<["description" := VStr "snack"]>
     (<["amount" := VNum (50 # 10)]> (<["category" := VStr "Food"]> ∅)))
    None.


(** An expense with a fifth field, as loaded from a file with a fifth
    column. *)
Definition noted : expense :=
  mkexpense (<["note" := VStr "paid cash"]> (fields lunch)) None.

(** An expense whose description is [None], as loaded from a row that stops
    after the amount. *)
Definition cut : expense :=
  mkexpense (<["description" := VNone]> (fields lunch)) None.


Definition fresh : tracker := mktracker [] None.

(** A file from another tool, without the date column. *)
Definition undated_table : table :=
  [["category"; "amount"; "description"]; ["Food"; "5.0"; "snack"]].


(** A file whose only row stops after the amount. *)
Definition short_table : table :=
  [fieldnames; ["2025-08-01"; "Food"; "42.5"]].

(** A file whose second row has an amount that is no number. *)
Definition damaged_table : table :=
  [fieldnames;
   ["2025-08-01"; "Food"; "42.5"; "lunch"];
   ["2025-08-02"; "Food"; "abc"; "dinner"];
   ["2025-08-15"; "Transport"; "10.0"; "bus"]].

(** No key is smaller than a later one. *)
Definition descending {K A : Type} (ltb : K -> K -> bool) (x y : K * A) : Prop :=
  ltb (fst x) (fst y) = false.





(** *** Notions for the properties of the other operations *)

(** The text under [date], empty when there is none. *)
Definition date_text (e : expense) : string :=
  match fields e !! "date" with
  | Some (VStr s) => s
  | _ => ""
  end.

(** The row that [csv.DictWriter] writes for an expense it accepts. *)
Definition written_row (str_of_float : Q -> string) (e : expense) : list string :=
  map (fun k => default "" (cell_text str_of_float <$> fields e !! k)) fieldnames.



(** A date that [datetime.date] accepts. *)
Definition valid_date (d : date) : bool :=
  match make_date (year d) (month d) (day d) with
  | Ok _ => true
  | Raise _ => false
  end.


(** The date of the expense is text. *)
Definition has_text_date (e : expense) : bool :=
  match fields e !! "date" with
  | Some (VStr _) => true
  | _ => false
  end.

(** What [view_expenses] prints for an expense. *)
Definition shown (e : expense) : line := if complete e then Shown e else Incomplete.

(** The expense that a row of four cells under the four field names is
    loaded as, when the third cell is a number. *)
Definition plain_row (float_of_string : string -> option Q) (cells : list string)
  : option expense :=
  match cells with
  | [d; c; a; s] =>
      match float_of_string a with
      | Some q => Some (new_expense d c q s)
      | None => None
      end
  | _ => None
  end.

(** The order of the calendar. *)
Definition earlier (d1 d2 : date) : bool :=
  (year d1 <? year d2)
  || ((year d1 =? year d2)
      && ((month d1 <? month d2) || ((month d1 =? month d2) && (day d1 <? day d2)))).

(** A cell that the format specifications of [view_expenses] accept. *)
Definition printable (e : expense) : bool :=
  negb (complete e)
  || forallb (fun k => match fields e !! k with Some VNone => false | _ => true end)
       fieldnames.

(** * Properties *)

(** ** The date patterns *)

Lemma classify (c : ascii) : char_class c.
Proof.
  destruct c as [[] [] [] [] [] [] [] []];
    first [ apply is_dash; reflexivity
          | apply is_other; reflexivity
          | eapply is_digit; [reflexivity | vm_compute; split; discriminate | reflexivity] ].
Qed.

Lemma year_cases (m : Z) (l : list ascii) :
  year_spec m (first_match (dir_Y l) (fun y s3 => found (y, m) s3))
    (Decimal.number_from 0 l) (length l =? 4)%nat.
Proof.
  destruct l as [|a [|b [|c [|d [|e l]]]]]; simpl; try constructor.
  - destruct (digit a) as [x|], (digit b) as [y|], (digit c) as [z|], (digit d) as [w|];
      simpl; try constructor.
    replace (10 * (10 * (10 * (10 * 0 + x) + y) + z) + w)
      with (1000 * x + 100 * y + 10 * z + w) by lia.
    constructor.
  - destruct (digit a) as [x|], (digit b) as [y|], (digit c) as [z|], (digit d) as [w|];
      simpl; constructor.
Qed.

Ltac enum_digit d H :=
  let E := fresh "E" in
  assert (d = 0 \/ d = 1 \/ d = 2 \/ d = 3 \/ d = 4 \/ d = 5 \/ d = 6 \/ d = 7 \/ d = 8 \/ d = 9)
    as E by lia;
  clear H;
  repeat (destruct E as [E | E]; [subst d | ]); [.. | subst d].

Ltac known :=
  repeat match goal with
  | H : digit ?c = _ |- context [digit ?c] => rewrite H
  | H : Ascii.eqb ?c dash = _ |- context [Ascii.eqb ?c dash] => rewrite H
  end.

Ltac eval_mY := unfold dir_m, two, one, in_range, lit; simpl; known; simpl.

Ltac year_split :=
  try match goal with
  | |- context [first_match (dir_Y ?l) (fun y s3 => found (y, ?m) s3)] =>
      destruct (year_cases m l)
  end.

Ltac settle :=
  repeat (simpl; known; simpl; try reflexivity;
    match goal with
    | |- context [match ?o with Some _ => _ | None => _ end] => is_var o; destruct o
    | |- context [Decimal.number_from ?a ?l] => destruct (Decimal.number_from a l)
    | |- context [(length ?l =? 4)%nat] => destruct (length l =? 4)%nat
    | |- context [split_dash ?l] => destruct (split_dash l) as [[? ?]|]
    | |- context [Ascii.eqb ?c dash] => destruct (Ascii.eqb c dash)
    end).

Lemma strptime_mY_spec (s : string) :
  strptime_mY s =
  match month_year_text [1%nat; 2%nat] s with
  | Some (y, m) => make_date y m 1
  | None => Raise ValueError
  end.
Proof.
  unfold strptime_mY, month_year_text.
  generalize (list_ascii_of_string s) as cs. clear s.
  intros [|c1 cs]; [reflexivity|].
  destruct (classify c1) as [a Ha Hr Hn | -> | Ha Hn].
  3:{ destruct cs; eval_mY; settle. }
  2:{ replace (split_dash (dash :: cs)) with (Some ([] : list ascii, cs)) by reflexivity.
      replace (Decimal.number_from 0 []) with (Some 0) by reflexivity.
      destruct (Decimal.number_from 0 cs); destruct cs; reflexivity. }
  destruct cs as [|c2 cs].
  { enum_digit a Hr; eval_mY; settle. }
  destruct (classify c2) as [b Hb Hrb Hnb | -> | Hb Hnb].
  3:{ enum_digit a Hr; eval_mY; settle. }
  2:{ enum_digit a Hr; eval_mY; year_split; settle. }
  destruct cs as [|c3 cs].
  { enum_digit a Hr; enum_digit b Hrb; eval_mY; settle. }
  destruct (classify c3) as [c Hc Hrc Hnc | -> | Hc Hnc].
  3:{ enum_digit a Hr; enum_digit b Hrb; eval_mY; settle. }
  2:{ enum_digit a Hr; enum_digit b Hrb; eval_mY; year_split; settle. }
  enum_digit a Hr; enum_digit b Hrb; eval_mY; settle.
Qed.

Lemma number_from_bound (l : list ascii) (acc n : Z) :
  0 <= acc -> Decimal.number_from acc l = Some n ->
  acc * 10 ^ Z.of_nat (length l) <= n < (acc + 1) * 10 ^ Z.of_nat (length l).
Proof.
  revert acc. induction l as [|c l IH]; intros acc Hacc H; simpl in H.
  - injection H as <-. change (10 ^ Z.of_nat (length (@nil ascii))) with 1. lia.
  - destruct (classify c) as [d Hd Hr _ | -> | Hd _]; rewrite ?Hd in H; try discriminate.
    apply IH in H; [|lia].
    replace (Z.of_nat (length (c :: l))) with (Z.succ (Z.of_nat (length l)))
      by (simpl length; lia).
    rewrite Z.pow_succ_r by lia. nia.
Qed.

(** X16: a month-year text of one or two digits for a month in 1..12, a
    dash and four digits for a year other than 0000 is accepted by
    [strptime] with [%m-%Y], as the first day of that month. *)
Lemma strptime_mY_accepts (s : string) (y m : Z) :
  month_year_text [1%nat; 2%nat] s = Some (y, m) -> 1 <= y ->
  strptime_mY s = Ok (mkdate y m 1).
Proof.
  intros H Hy. rewrite strptime_mY_spec, H.
  unfold month_year_text in H.
  destruct (split_dash _) as [[mt yt]|]; [|discriminate].
  destruct (Decimal.number_from 0 mt) as [m'|]; [|discriminate].
  destruct (Decimal.number_from 0 yt) as [y'|] eqn:Hyt; [|discriminate].
  destruct (existsb _ _ && (length yt =? 4)%nat && (1 <=? m') && (m' <=? 12)) eqn:Hc;
    [|discriminate].
  injection H as -> ->.
  repeat (apply andb_prop in Hc; destruct Hc as [Hc ?]).
  apply number_from_bound in Hyt; [|lia].
  replace (length yt) with 4%nat in Hyt by (symmetry; by apply Nat.eqb_eq).
  change (10 ^ Z.of_nat 4) with 10000 in Hyt.
  unfold make_date.
  replace (1 <=? y) with true by (symmetry; apply Z.leb_le; lia).
  replace (y <=? 9999) with true by (symmetry; apply Z.leb_le; lia).
  replace (1 <=? m) with true by done.
  replace (m <=? 12) with true by done.
  replace (1 <=? days_in_month y m) with true; [reflexivity|].
  symmetry. apply Z.leb_le. unfold days_in_month.
  destruct (m =? 2); [destruct (is_leap y); lia|].
  destruct ((m =? 4) || (m =? 6) || (m =? 9) || (m =? 11)); lia.
Qed.




(** ** Reading the date of a new expense *)

Lemma capitalisation_today (s : string) :
  capitalisation "today" s = true -> lower s = "today".
Proof.
  destruct s as [|c1 [|c2 [|c3 [|c4 [|c5 [|c6 s]]]]]]; simpl; try discriminate;
    intros H; repeat (apply andb_prop in H; destruct H as [?H H]); try discriminate.
  repeat match goal with
  | H : (_ || _) = true |- _ => apply orb_prop in H; destruct H as [H | H]
  | H : Ascii.eqb _ _ = true |- _ => apply Ascii.eqb_eq in H; subst
  end; reflexivity.
Qed.

(** C10: whatever the case of its letters, the word [today] is accepted as
    the date of a new expense, and the date that is stored is the current
    date written as [YYYY-MM-DD]. *)
Theorem today_any_case (s : string) (now : date) (ins : stdin) :
  capitalisation "today" s = true ->
  read_date now (s :: ins) = Ok (strftime_Ymd now, ins).
Proof.
  intros H. simpl. by rewrite (capitalisation_today s H).
Qed.

Lemma today_any_case_witness :
  capitalisation "today" "ToDAY" = true
  /\ read_date (mkdate 2025 8 20) ["ToDAY"; "Food"] = Ok ("2025-08-20", ["Food"]).
Proof.
  split; [reflexivity|].
  exact (today_any_case "ToDAY" (mkdate 2025 8 20) ["Food"] eq_refl).
Defined.

(** ** Typed records *)

Lemma typed_lookup (e : expense) (k : string) (v : value) :
  typed e = true -> fields e !! k = Some v -> typed_value k v = true.
Proof.
  unfold typed. rewrite forallb_forall. intros H Hk.
  apply (H (k, v)). apply list_elem_of_In. by apply elem_of_map_to_list.
Qed.



Lemma typed_amount (e : expense) (v : value) :
  typed e = true -> fields e !! "amount" = Some v -> exists q, v = VNum q.
Proof. intros H Hk. apply (typed_lookup e _ _ H) in Hk. destruct v; try discriminate. eauto. Qed.


(** ** The month filter *)




(** ** Sums *)





(** ** The sort *)

Section SortFacts.
Context {K A : Type}.
Variable ltb : K -> K -> bool.
Hypothesis ltb_asym : forall a b, ltb a b = true -> ltb b a = false.
Hypothesis ltb_cotrans : forall a b c, ltb a b = false -> ltb b c = false -> ltb a c = false.

Let lt (a b : K) : res bool := Ok (ltb a b).

Lemma insert_desc_perm (x : K * A) (l : list (K * A)) :
  exists l', insert_desc lt x l = Ok l' /\ Permutation (x :: l) l'.
Proof.
  induction l as [|y l (l' & E & P)]; simpl.
  - by exists [x].
  - destruct (ltb (fst x) (fst y)).
    + rewrite E. simpl. exists (y :: l'). split; [reflexivity|].
      rewrite <- P. apply perm_swap.
    + by exists (x :: y :: l).
Qed.

Lemma insert_desc_sorted (x : K * A) (l l' : list (K * A)) :
  StronglySorted (descending ltb) l -> insert_desc lt x l = Ok l' ->
  StronglySorted (descending ltb) l'.
Proof.
  revert l'. induction l as [|y l IH]; simpl; intros l' S E.
  - injection E as <-. repeat constructor.
  - destruct (ltb (fst x) (fst y)) eqn:Hxy.
    + destruct (insert_desc_perm x l) as (r & Er & P).
      rewrite Er in E. simpl in E. injection E as <-.
      apply StronglySorted_inv in S as [S Hy].
      constructor; [by apply IH|].
      rewrite <- P. constructor; [|exact Hy].
      by apply ltb_asym.
    + injection E as <-. constructor; [exact S|].
      constructor; [exact Hxy|].
      apply StronglySorted_inv in S as [_ Hy].
      eapply Forall_impl; [exact Hy|]. intros z Hz. by eapply ltb_cotrans.
Qed.

Lemma sort_desc_perm (l : list (K * A)) :
  exists l', sort_desc lt l = Ok l' /\ Permutation l l'.
Proof.
  induction l as [|x l (s & E & P)]; simpl.
  - by exists [].
  - rewrite E. simpl. destruct (insert_desc_perm x s) as (l' & E' & P').
    exists l'. split; [exact E'|]. rewrite <- P'. by constructor.
Qed.

Lemma sort_desc_sorted (l l' : list (K * A)) :
  sort_desc lt l = Ok l' -> StronglySorted (descending ltb) l'.
Proof.
  revert l'. induction l as [|x l IH]; simpl; intros l' E.
  - injection E as <-. constructor.
  - destruct (sort_desc lt l) as [s|]; [|discriminate]. simpl in E.
    eapply insert_desc_sorted; [|exact E]. by apply IH.
Qed.


End SortFacts.

(** ** The category table *)
























(** ** The report of [track_budget] *)







(** ** Saving and loading *)




Lemma new_expense_fields (d c : string) (a : Q) (s : string) :
  fields (new_expense d c a s) !! "date" = Some (VStr d)
  /\ fields (new_expense d c a s) !! "category" = Some (VStr c)
  /\ fields (new_expense d c a s) !! "amount" = Some (VNum a)
  /\ fields (new_expense d c a s) !! "description" = Some (VStr s).
Proof.
  unfold new_expense. simpl. repeat split.
Qed.


Lemma new_expense_typed (d c : string) (a : Q) (s : string) :
  typed (new_expense d c a s) = true.
Proof. vm_compute. reflexivity. Qed.

Lemma new_expense_is_record (d c : string) (a : Q) (s : string) :
  is_record (new_expense d c a s) = true.
Proof. vm_compute. reflexivity. Qed.

Section RoundTrip.
Variable float_of_string : string -> option Q.
Variable str_of_float : Q -> string.

Lemma read_rows_app (names : list string) (rows1 rows2 : table) (acc acc' : list expense) :
  read_rows float_of_string names rows1 acc = (acc', None) ->
  read_rows float_of_string names (rows1 ++ rows2) acc
  = read_rows float_of_string names rows2 acc'.
Proof.
  revert acc. induction rows1 as [|cells rows1 IH]; intros acc; simpl.
  - by intros [= ->].
  - destruct cells as [|c cells]; [apply IH|].
    destruct (convert_amount _ _) as [e|x]; [apply IH|discriminate].
Qed.

Lemma zip_cells_fieldnames (d c a s : string) :
  zip_cells fieldnames [d; c; a; s] ∅
  = <["description" := VStr s]>
      (<["amount" := VStr a]> (<["category" := VStr c]> (<["date" := VStr d]> ∅))).
Proof. reflexivity. Qed.



End RoundTrip.

(** ** What [load_expenses] and the menu keep true *)

Lemma typed_intro (e : expense) :
  (forall k v, fields e !! k = Some v -> typed_value k v = true) -> typed e = true.
Proof.
  intros H. unfold typed. apply forallb_forall. intros [k v] Hin.
  apply list_elem_of_In, elem_of_map_to_list in Hin. by apply H.
Qed.

Lemma zip_cells_text (names cells : list string) (d : gmap string value) :
  (forall k v, d !! k = Some v -> is_text v = true) ->
  forall k v, zip_cells names cells d !! k = Some v -> is_text v = true.
Proof.
  revert cells d. induction names as [|n names IH]; intros cells d Hd k v; simpl.
  - apply Hd.
  - destruct cells as [|c cells]; apply IH; intros k' v' Hk'.
    + apply lookup_insert_Some in Hk' as [[_ <-]|[_ Hk']]; [reflexivity|by eapply Hd].
    + apply lookup_insert_Some in Hk' as [[_ <-]|[_ Hk']]; [reflexivity|by eapply Hd].
Qed.

Lemma dict_row_text (names cells : list string) (k : string) (v : value) :
  fields (dict_row names cells) !! k = Some v -> is_text v = true.
Proof.
  unfold dict_row. cbn [fields]. apply zip_cells_text.
  intros k' v'. by rewrite lookup_empty.
Qed.

Section Loading.
Variable float_of_string : string -> option Q.
Variable str_of_float : Q -> string.

Lemma convert_amount_typed (names cells : list string) (e : expense) :
  convert_amount float_of_string (dict_row names cells) = Ok e -> typed e = true.
Proof.
  unfold convert_amount.
  pose proof (dict_row_text names cells) as Ht.
  destruct (fields (dict_row names cells) !! "amount") as [[s|q|]|] eqn:Ea.
  - destruct (float_of_string s) as [q|]; [|discriminate].
    intros [= <-]. apply typed_intro. cbn [fields]. intros k v Hk.
    apply lookup_insert_Some in Hk as [[<- <-]|[Hne Hk]]; [reflexivity|].
    apply Ht in Hk. destruct v; try discriminate; simpl.
    all: apply negb_true_iff, String.eqb_neq; congruence.
  - apply Ht in Ea. discriminate.
  - discriminate.
  - intros [= <-]. apply typed_intro. intros k v Hk.
    assert (k <> "amount") as Hne by congruence.
    apply Ht in Hk. destruct v; try discriminate; simpl.
    all: by apply negb_true_iff, String.eqb_neq.
Qed.

Lemma read_rows_typed (names : list string) (rows : table) (acc es : list expense)
  (err : option exn) :
  forallb typed acc = true ->
  read_rows float_of_string names rows acc = (es, err) ->
  forallb typed es = true.
Proof.
  revert acc. induction rows as [|cells rows IH]; intros acc Hacc; simpl.
  - by intros [= <- _].
  - destruct cells as [|c cells]; [by apply IH|].
    destruct (convert_amount _ _) as [e|x] eqn:Ec.
    + apply IH. rewrite forallb_app, Hacc. simpl.
      by rewrite (convert_amount_typed _ _ _ Ec).
    + by intros [= <- _].
Qed.

Lemma load_expenses_typed (t : tracker) (d : disk) :
  forallb typed (expenses t) = true ->
  forallb typed (expenses (fst (load_expenses float_of_string t d))) = true.
Proof.
  intros Ht. unfold load_expenses.
  destruct (expenses_csv d) as [| |rows]; try exact Ht.
  destruct (match rows with [] => _ | names :: rows' => _ end) as [es err] eqn:E.
  assert (forallb typed es = true) as Hes.
  { destruct rows as [|names rows]; [by injection E as <- _|].
    by eapply (read_rows_typed names rows []). }
  destruct err; [exact Hes|].
  by destruct (budget_txt d).
Qed.

(** The stop at a row that cannot be converted. *)
Lemma read_rows_stops (names cells : list string) (before after : table)
  (es : list expense) (x : exn) :
  read_rows float_of_string names before [] = (es, None) ->
  cells <> [] ->
  convert_amount float_of_string (dict_row names cells) = Raise x ->
  read_rows float_of_string names (before ++ cells :: after) [] = (es, Some x).
Proof.
  intros Hb Hne Hc. rewrite (read_rows_app _ _ _ _ _ _ Hb). simpl.
  destruct cells as [|c cells]; [done|]. by rewrite Hc.
Qed.

(** C7, amended: a row whose amount is no number makes the load report an
    error instead of the number of expenses loaded, and stops it at that
    row: the rows before it are in the ledger, the row itself and every
    row after it are not, and the budget storage is not read. *)
Theorem load_stops_at_bad_amount (t : tracker) (d : disk) (names cells : list string)
  (before after : table) (es : list expense) (s : string) :
  expenses_csv d = Holds (names :: before ++ cells :: after) ->
  read_rows float_of_string names before [] = (es, None) ->
  cells <> [] ->
  fields (dict_row names cells) !! "amount" = Some (VStr s) ->
  float_of_string s = None ->
  load_expenses float_of_string t d = (mktracker es (budget t), LoadError).
Proof.
  intros Hd Hb Hne Ha Hs. unfold load_expenses. rewrite Hd.
  rewrite (read_rows_stops names cells before after es ValueError Hb Hne); [reflexivity|].
  unfold convert_amount. by rewrite Ha, Hs.
Qed.

(** ** The budget *)

Lemma read_positive_positive (ins ins' : stdin) (q : Q) :
  read_positive float_of_string ins = Ok (q, ins') -> (0 < q)%Q.
Proof.
  induction ins as [|l ins IH]; simpl; [discriminate|].
  destruct (float_of_string l) as [a|]; [|exact IH].
  destruct (Qle_bool a 0) eqn:E; [exact IH|].
  intros [= <- _]. apply Qnot_le_lt. rewrite <- Qle_bool_iff. congruence.
Qed.

Lemma set_budget_ok (t t' : tracker) (ins ins' : stdin) :
  set_budget float_of_string t ins = Ok (t', ins') ->
  budget_ok t' /\ expenses t' = expenses t.
Proof.
  unfold set_budget.
  destruct (read_positive float_of_string ins) as [[b ins1]|] eqn:E; [|discriminate].
  simpl. intros [= <- _]. split; [|reflexivity].
  unfold budget_ok. simpl. by eapply read_positive_positive.
Qed.

Lemma add_expense_shape (now : date) (t t' : tracker) (ins ins' : stdin) :
  add_expense float_of_string now t ins = Ok (t', ins') ->
  budget t' = budget t
  /\ exists d c a s, expenses t' = expenses t ++ [new_expense d c a s].
Proof.
  unfold add_expense.
  destruct (read_date now ins) as [[d i1]|]; [|discriminate]. simpl.
  destruct (input i1) as [[c i2]|]; [|discriminate]. simpl.
  destruct (read_positive float_of_string i2) as [[a i3]|]; [|discriminate]. simpl.
  destruct (input i3) as [[s i4]|]; [|discriminate]. simpl.
  intros [= <- _]. split; [reflexivity|]. by exists d, c, a, s.
Qed.

Lemma track_budget_ok (now : date) (t t' : tracker) (ins ins' : stdin) (r : option report) :
  track_budget float_of_string now t ins = Ok (t', ins', r) ->
  (budget_ok t -> budget_ok t') /\ expenses t' = expenses t.
Proof.
  unfold track_budget. destruct (budget t) as [b|] eqn:Eb.
  - destruct (input ins) as [[c i1]|]; [|discriminate]. simpl.
    destruct (resolve_period c now i1) as [[[y m] i2]|]; [|discriminate]. simpl.
    destruct (summarize _ _ _ _); [|discriminate]. simpl.
    by intros [= <- _ _].
  - destruct (set_budget float_of_string t ins) as [[t1 i1]|] eqn:E; [|discriminate].
    simpl. intros [= <- _ _]. apply set_budget_ok in E as [H1 H2]. by split.
Qed.

(** One turn of the menu changes the budget through [set_budget] only, and
    the expenses through [add_expense] only. *)
Lemma turn_keeps (now : date) (t t' : tracker) (d d' : disk) (ins ins' : stdin) (go : bool) :
  turn float_of_string str_of_float now t d ins = Ok (t', d', ins', go) ->
  (budget_ok t -> budget_ok t')
  /\ (forallb typed (expenses t) = true -> forallb typed (expenses t') = true).
Proof.
  unfold turn. destruct (input ins) as [[c i1]|]; [|discriminate]. simpl.
  destruct (String.eqb c "1").
  { destruct (add_expense _ _ _ _) as [[t1 i2]|] eqn:E; [|discriminate]. simpl.
    intros [= <- _ _ _]. apply add_expense_shape in E as (Hb & dd & cc & a & s & He).
    split.
    - unfold budget_ok. by rewrite Hb.
    - intros Ht. rewrite He, forallb_app, Ht. simpl. by rewrite new_expense_typed. }
  destruct (String.eqb c "2").
  { destruct (view_expenses t); [|discriminate]. simpl. by intros [= <- _ _ _]. }
  destruct (String.eqb c "3").
  { destruct (set_budget _ _ _) as [[t1 i2]|] eqn:E; [|discriminate]. simpl.
    intros [= <- _ _ _]. apply set_budget_ok in E as [H1 H2]. rewrite H2. by split. }
  destruct (String.eqb c "4").
  { destruct (track_budget _ _ _ _) as [[[t1 i2] r]|] eqn:E; [|discriminate]. simpl.
    intros [= <- _ _ _]. apply track_budget_ok in E as [H1 H2]. rewrite H2. by split. }
  destruct (String.eqb c "5"); [by intros [= <- _ _ _]|].
  destruct (String.eqb c "6"); by intros [= <- _ _ _].
Qed.


(** X7: every record the program holds, in every state it reaches from
    any disk, has a number under [amount] and text or [None] under every
    other key. *)
Lemma reachable_typed (d0 : disk) (t : tracker) (d : disk) :
  reachable float_of_string str_of_float d0 t d -> forallb typed (expenses t) = true.
Proof.
  induction 1 as [|t d now ins t' d' ins' go _ IH Hturn].
  - by apply load_expenses_typed.
  - by apply (turn_keeps _ _ _ _ _ _ _ _ Hturn).
Qed.

End Loading.

(** ** The properties on worked examples *)





Lemma load_stops_at_bad_amount_witness :
  expenses_csv (mkdisk (Holds damaged_table) (Holds "100.0"))
  = Holds (fieldnames :: [["2025-08-01"; "Food"; "42.5"; "lunch"]]
             ++ ["2025-08-02"; "Food"; "abc"; "dinner"]
             :: [["2025-08-15"; "Transport"; "10.0"; "bus"]])
  /\ read_rows Decimal.float_of_string fieldnames [["2025-08-01"; "Food"; "42.5"; "lunch"]] []
     = ([lunch], None)
  /\ fields (dict_row fieldnames ["2025-08-02"; "Food"; "abc"; "dinner"]) !! "amount"
     = Some (VStr "abc")
  /\ Decimal.float_of_string "abc" = None
  /\ load_expenses Decimal.float_of_string fresh (mkdisk (Holds damaged_table) (Holds "100.0"))
     = (mktracker [lunch] None, LoadError).
Proof.
  split; [reflexivity|].
  split; [vm_compute; reflexivity|].
  split; [vm_compute; reflexivity|].
  split; [vm_compute; reflexivity|].
  apply (load_stops_at_bad_amount Decimal.float_of_string fresh
           (mkdisk (Holds damaged_table) (Holds "100.0")) fieldnames
           ["2025-08-02"; "Food"; "abc"; "dinner"]
           [["2025-08-01"; "Food"; "42.5"; "lunch"]]
           [["2025-08-15"; "Transport"; "10.0"; "bus"]] [lunch] "abc").
  - reflexivity.
  - vm_compute; reflexivity.
  - intros [=].
  - vm_compute; reflexivity.
  - vm_compute; reflexivity.
Defined.


(** ** Where the code departs from the specification *)


(** C3: on a ledger with a record that has no date, [view_expenses] raises
    [KeyError] in the sort, before the test that would report the record as
    incomplete. Such a ledger is what [load_expenses] builds from a file
    without the date column; [track_budget] passes over the same record. *)
Theorem view_raises_without_date :
  init Decimal.float_of_string (mkdisk (Holds undated_table) Absent) = mktracker [snack] None
  /\ complete snack = false
  /\ view_expenses (mktracker [snack] None) = Raise KeyError
  /\ monthly_expenses 2025 8 [snack] = Ok [].
Proof. vm_compute. repeat split. Qed.

(** C6: with a budget storage that holds a number and no expense storage,
    the tracker starts without a budget: [load_expenses] returns before it
    reads the budget storage. The same holds when reading the expenses
    fails. *)
Theorem budget_not_loaded_without_expenses :
  Decimal.float_of_string (strip "100.0") = Some (1000 # 10)
  /\ init Decimal.float_of_string (mkdisk Absent (Holds "100.0")) = mktracker [] None
  /\ budget (init Decimal.float_of_string (mkdisk (Holds damaged_table) (Holds "100.0")))
     = None
  /\ budget (init Decimal.float_of_string (mkdisk (Holds [fieldnames]) (Holds "100.0")))
     = Some (1000 # 10).
Proof. vm_compute. repeat split. Qed.

(** C7, as the specification words it, fails: after a load that stops at a
    bad amount the ledger holds the rows that came before it. *)
Lemma load_keeps_rows_before_bad_amount :
  load_expenses Decimal.float_of_string fresh (mkdisk (Holds damaged_table) Absent)
  = (mktracker [lunch] None, LoadError)
  /\ expenses (fst (load_expenses Decimal.float_of_string fresh
                      (mkdisk (Holds damaged_table) Absent))) <> [].
Proof. split; [vm_compute; reflexivity|]. vm_compute. intros [=]. Qed.


(** ** The scenarios of the specification *)

Example scenario_summary :
  exists r, summarize [lunch; bus] 2025 8 (100 # 1) = Ok r
    /\ (total_spent r == 52.5)%Q
    /\ (remaining r == 47.5)%Q
    /\ exceeded r = false
    /\ map label (by_category r) = [VStr "Food"; VStr "Transport"]
    /\ Forall2 Qeq (map spent (by_category r)) [42.5; 10]%Q
    /\ Forall2 Qeq (map percent (by_category r)) [42.5; 10]%Q.
Proof.
  eexists. split; [vm_compute; reflexivity|]. simpl.
  repeat split; try reflexivity.
  all: repeat constructor.
Qed.

Example scenario_today :
  read_date (mkdate 2025 8 20) ["today"] = Ok ("2025-08-20", []).
Proof. reflexivity. Qed.

Example scenario_bad_date :
  strptime_Ymd "2025-13-40" = Raise ValueError
  /\ read_date (mkdate 2025 8 20) ["2025-13-40"; "2025-08-01"] = Ok ("2025-08-01", []).
Proof. split; reflexivity. Qed.

Example scenario_amount_not_positive :
  add_expense Decimal.float_of_string (mkdate 2025 8 20) fresh ["2025-08-01"; "Food"; "0"; "-3"]
  = Raise EOFError
  /\ add_expense Decimal.float_of_string (mkdate 2025 8 20) fresh
       ["2025-08-01"; "Food"; "0"; "-3"; "42.50"; "lunch"]
     = Ok (mktracker [lunch] None, []).
Proof. split; vm_compute; reflexivity. Qed.

Example strptime_cases :
  strptime_Ymd "2025-08-15" = Ok (mkdate 2025 8 15)
  /\ strptime_Ymd "2025-8-5" = Ok (mkdate 2025 8 5)
  /\ strptime_Ymd "2024-02-29" = Ok (mkdate 2024 2 29)
  /\ strptime_Ymd "2024-02-30" = Raise ValueError
  /\ strptime_Ymd "2025-02-29" = Raise ValueError
  /\ strptime_Ymd "2025-08-311" = Raise ValueError
  /\ strptime_Ymd "" = Raise ValueError
  /\ strptime_mY "08-2025" = Ok (mkdate 2025 8 1)
  /\ strptime_mY "08-0000" = Raise ValueError
  /\ strptime_mY "08-20255" = Raise ValueError.
Proof. repeat split; reflexivity. Qed.

(** * Further properties *)

(** ** The prompts *)

Lemma make_date_valid (y m d : Z) (dt : date) :
  make_date y m d = Ok dt ->
  dt = mkdate y m d /\ 1 <= y <= 9999 /\ 1 <= m <= 12 /\ 1 <= d <= days_in_month y m.
Proof.
  unfold make_date.
  destruct ((1 <=? y) && (y <=? 9999) && (1 <=? m) && (m <=? 12)
            && (1 <=? d) && (d <=? days_in_month y m)) eqn:E; [|discriminate].
  intros [= <-].
  repeat (apply andb_prop in E; destruct E as [E ?]).
  repeat match goal with H : (_ <=? _) = true |- _ => apply Z.leb_le in H end.
  repeat split; lia.
Qed.

Lemma strptime_mY_valid (s : string) (d : date) :
  strptime_mY s = Ok d -> valid_date d = true /\ day d = 1.
Proof.
  unfold strptime_mY.
  destruct (first_match _ _) as [[[y m] [|? ?]]|]; try discriminate.
  intros H. unfold valid_date.
  destruct (make_date_valid _ _ _ _ H) as (-> & _). simpl. by rewrite H.
Qed.

Lemma strptime_Ymd_valid (s : string) (d : date) :
  strptime_Ymd s = Ok d -> valid_date d = true.
Proof.
  unfold strptime_Ymd.
  destruct (first_match _ _) as [[[[y m] dd] [|? ?]]|]; try discriminate.
  intros H. unfold valid_date.
  destruct (make_date_valid _ _ _ _ H) as (-> & _). simpl. by rewrite H.
Qed.

Lemma valid_date_first (d : date) :
  valid_date d = true -> make_date (year d) (month d) 1 = Ok (mkdate (year d) (month d) 1).
Proof.
  unfold valid_date. destruct (make_date _ _ _) as [dt|] eqn:E; [|discriminate].
  intros _. apply make_date_valid in E as (_ & Hy & Hm & Hd).
  unfold make_date.
  replace (1 <=? year d) with true by (symmetry; apply Z.leb_le; lia).
  replace (year d <=? 9999) with true by (symmetry; apply Z.leb_le; lia).
  replace (1 <=? month d) with true by (symmetry; apply Z.leb_le; lia).
  replace (month d <=? 12) with true by (symmetry; apply Z.leb_le; lia).
  replace (1 <=? days_in_month (year d) (month d)) with true
    by (symmetry; apply Z.leb_le; lia).
  reflexivity.
Qed.

Lemma read_month_year_valid (ins ins' : stdin) (y m : Z) :
  read_month_year ins = Ok (y, m, ins') ->
  make_date y m 1 = Ok (mkdate y m 1) /\ (length ins' < length ins)%nat.
Proof.
  induction ins as [|s ins IH]; simpl; [discriminate|].
  destruct (strptime_mY s) as [d|x] eqn:E.
  - intros [= <- <- <-]. split; [|lia].
    apply strptime_mY_valid in E as [Hv _]. by apply valid_date_first.
  - destruct x; try discriminate. intros H. apply IH in H as [H1 H2]. split; [exact H1|lia].
Qed.

(** X4: the period that [track_budget] resolves is a month of the calendar:
    whatever is typed, and for any valid current date, the year lies in
    1..9999 and the month in 1..12, so that [datetime.date(year, month, 1)]
    of line 144 exists. *)
Theorem resolve_period_valid (choice : string) (now : date) (ins ins' : stdin) (y m : Z) :
  valid_date now = true ->
  resolve_period choice now ins = Ok (y, m, ins') ->
  make_date y m 1 = Ok (mkdate y m 1) /\ 1 <= y <= 9999 /\ 1 <= m <= 12.
Proof.
  intros Hn H.
  assert (make_date y m 1 = Ok (mkdate y m 1)) as E.
  { unfold resolve_period in H. destruct (String.eqb choice "2").
    - by apply read_month_year_valid in H as [H _].
    - injection H as <- <- _. by apply valid_date_first. }
  split; [exact E|]. apply make_date_valid in E. tauto.
Qed.

Lemma resolve_period_valid_witness :
  valid_date (mkdate 2025 8 20) = true
  /\ resolve_period "2" (mkdate 2025 8 20) ["2-25"; "02-2024"; "x"] = Ok (2024, 2, ["x"])
  /\ make_date 2024 2 1 = Ok (mkdate 2024 2 1) /\ 1 <= 2024 <= 9999 /\ 1 <= 2 <= 12.
Proof.
  split; [reflexivity|]. split; [reflexivity|].
  apply (resolve_period_valid "2" (mkdate 2025 8 20) ["2-25"; "02-2024"; "x"] ["x"] 2024 2);
    reflexivity.
Defined.

Section Prompts.
Variable float_of_string : string -> option Q.
Variable str_of_float : Q -> string.








End Prompts.

(** ** Saving *)

Section Saving.
Variable float_of_string : string -> option Q.
Variable str_of_float : Q -> string.

Lemma writerows_accepted (es : list expense) (rest : list expense) :
  forallb (fun e => negb (wrong_fields e)) es = true ->
  writerows str_of_float (es ++ rest)
  = (map (written_row str_of_float) es ++ fst (writerows str_of_float rest),
     snd (writerows str_of_float rest)).
Proof.
  induction es as [|e es IH]; simpl; intros H.
  - by destruct (writerows str_of_float rest).
  - apply andb_prop in H as [He Hes]. apply negb_true_iff in He.
    unfold dict_to_list. rewrite He. fold (written_row str_of_float e).
    by rewrite (IH Hes).
Qed.

(** X8: [save_expenses] stops at the first record that has a key outside the
    four field names: it reports an error, and the file, which was emptied
    when it was opened, holds the header and the rows of the records before
    that one. What the file held before, and the records after, are not in
    it. The budget storage is untouched. *)
Theorem save_stops_at_wrong_fields (t : tracker) (d : disk) (before after : list expense)
  (e : expense) :
  expenses t = before ++ e :: after ->
  forallb (fun e => negb (wrong_fields e)) before = true ->
  wrong_fields e = true ->
  writable (expenses_csv d) = true ->
  save_expenses str_of_float t d
  = (mkdisk (Holds (fieldnames :: map (written_row str_of_float) before)) (budget_txt d),
     false).
Proof.
  intros Ht Hb He Hw. unfold save_expenses. rewrite Ht.
  rewrite (writerows_accepted before (e :: after) Hb). simpl.
  unfold dict_to_list. rewrite He. simpl. rewrite app_nil_r.
  by destruct (expenses_csv d).
Qed.

End Saving.

(** ** The order of texts *)

Lemma ascii_compare_trans (a b c : ascii) (r : comparison) :
  Ascii.compare a b = r -> Ascii.compare b c = r -> Ascii.compare a c = r.
Proof.
  unfold Ascii.compare. destruct r; intros H1 H2.
  - rewrite N.compare_eq_iff in *. congruence.
  - rewrite N.compare_lt_iff in *. lia.
  - rewrite N.compare_gt_iff in *. lia.
Qed.

Lemma string_compare_lt_trans (s1 s2 s3 : string) :
  String.compare s1 s2 = Lt -> String.compare s2 s3 = Lt -> String.compare s1 s3 = Lt.
Proof.
  revert s2 s3. induction s1 as [|a s1 IH]; intros [|b s2] [|c s3]; simpl;
    try discriminate; try reflexivity.
  destruct (Ascii.compare a b) eqn:Eab; try discriminate;
    destruct (Ascii.compare b c) eqn:Ebc; try discriminate; intros H1 H2.
  - rewrite (ascii_compare_trans a b c Eq Eab Ebc). by eapply IH.
  - apply Ascii.compare_eq_iff in Eab. subst. by rewrite Ebc.
  - apply Ascii.compare_eq_iff in Ebc. subst. by rewrite Eab.
  - by rewrite (ascii_compare_trans a b c Lt Eab Ebc).
Qed.

Lemma string_compare_refl (s : string) : String.compare s s = Eq.
Proof.
  induction s as [|a s IH]; simpl; [reflexivity|].
  unfold Ascii.compare. by rewrite N.compare_refl.
Qed.

Lemma string_ltb_asym (a b : string) : String.ltb a b = true -> String.ltb b a = false.
Proof.
  unfold String.ltb. rewrite (String.compare_antisym b a).
  by destruct (String.compare a b).
Qed.

Lemma string_ltb_cotrans (a b c : string) :
  String.ltb a b = false -> String.ltb b c = false -> String.ltb a c = false.
Proof.
  unfold String.ltb.
  rewrite (String.compare_antisym a b), (String.compare_antisym b c),
    (String.compare_antisym a c).
  destruct (String.compare b a) eqn:E1; simpl; try discriminate;
    destruct (String.compare c b) eqn:E2; simpl; try discriminate; intros _ _.
  - apply String.compare_eq_iff in E1, E2. subst. by rewrite string_compare_refl.
  - apply String.compare_eq_iff in E1. subst. by rewrite E2.
  - apply String.compare_eq_iff in E2. subst. by rewrite E1.
  - by rewrite (string_compare_lt_trans c b a E2 E1).
Qed.

Lemma string_ltb_irrefl (a : string) : String.ltb a a = false.
Proof. unfold String.ltb. by rewrite string_compare_refl. Qed.

(** ** More on the sort *)

Section SortMore.
Context {K A : Type}.
Variable ltb : K -> K -> bool.

(** Records that are never out of order with one another keep their
    order. *)
Lemma insert_desc_stable (p : K * A -> bool) (x : K * A) (l l' : list (K * A)) :
  (forall y z, p y = true -> p z = true -> ltb (fst y) (fst z) = false) ->
  insert_desc (fun a b => Ok (ltb a b)) x l = Ok l' ->
  List.filter p l' = List.filter p (x :: l).
Proof.
  intros Hp. revert l'. induction l as [|y l IH]; simpl; intros l'.
  - by intros [= <-].
  - destruct (ltb (fst x) (fst y)) eqn:E.
    + destruct (insert_desc _ x l) as [r|]; [|discriminate]. simpl.
      intros [= <-]. simpl. rewrite (IH r eq_refl). simpl.
      destruct (p x) eqn:Ex, (p y) eqn:Ey; try reflexivity.
      by rewrite (Hp x y Ex Ey) in E.
    + by intros [= <-].
Qed.

Lemma sort_desc_stable (p : K * A -> bool) (l l' : list (K * A)) :
  (forall y z, p y = true -> p z = true -> ltb (fst y) (fst z) = false) ->
  sort_desc (fun a b => Ok (ltb a b)) l = Ok l' ->
  List.filter p l' = List.filter p l.
Proof.
  intros Hp. revert l'. induction l as [|x l IH]; simpl; intros l'.
  - by intros [= <-].
  - destruct (sort_desc _ l) as [s|]; [|discriminate]. simpl. intros E.
    rewrite (insert_desc_stable p x s l' Hp E). simpl. by rewrite (IH s eq_refl).
Qed.
End SortMore.

(** The comparison of values, on keys that are all text, is the comparison
    of the texts. *)
Lemma insert_desc_text {A : Type} (x : string * A) (l : list (string * A)) :
  insert_desc value_ltb (VStr (fst x), snd x) (map (fun p => (VStr (fst p), snd p)) l)
  = match insert_desc (fun a b => Ok (String.ltb a b)) x l with
    | Ok r => Ok (map (fun p => (VStr (fst p), snd p)) r)
    | Raise e => Raise e
    end.
Proof.
  induction l as [|y l IH]; simpl; [reflexivity|].
  destruct (String.ltb (fst x) (fst y)); simpl; [|reflexivity].
  rewrite IH. by destruct (insert_desc _ x l).
Qed.

Lemma sort_desc_text {A : Type} (l : list (string * A)) :
  sort_desc value_ltb (map (fun p => (VStr (fst p), snd p)) l)
  = match sort_desc (fun a b => Ok (String.ltb a b)) l with
    | Ok r => Ok (map (fun p => (VStr (fst p), snd p)) r)
    | Raise e => Raise e
    end.
Proof.
  induction l as [|x l IH]; simpl; [reflexivity|].
  rewrite IH. destruct (sort_desc _ l) as [s|]; simpl; [|reflexivity].
  apply (insert_desc_text x s).
Qed.

(** ** [view_expenses] on dated records *)

Lemma keyed_by_date (es : list expense) :
  forallb has_text_date es = true ->
  mapM (fun x => let* k := getitem "date" x in Ok (k, x)) es
  = Ok (map (fun p => (VStr (fst p), snd p)) (map (fun e => (date_text e, e)) es)).
Proof.
  induction es as [|e es IH]; simpl; [reflexivity|].
  intros H. apply andb_prop in H as [He Hes]. rewrite (IH Hes).
  unfold has_text_date in He. unfold getitem, date_text.
  by destruct (fields e !! "date") as [[s| |]|].
Qed.

Lemma show_line_printable (e : expense) :
  typed e = true -> has_text_date e = true -> printable e = true ->
  show_line e = Ok (shown e).
Proof.
  intros Ht Hd Hp. unfold show_line, shown. fold (complete e).
  destruct (complete e) eqn:Hc; [|reflexivity].
  unfold printable in Hp. rewrite Hc in Hp. simpl in Hp.
  unfold complete, fieldnames, has in Hc. simpl in Hc.
  unfold fieldnames in Hp. simpl in Hp.
  unfold has_text_date in Hd. unfold getitem.
  destruct (fields e !! "date") as [[d| |]|]; try discriminate Hd.
  destruct (fields e !! "category") as [c|] eqn:Ec; [|discriminate Hc].
  destruct (fields e !! "amount") as [a|] eqn:Ea; [|discriminate Hc].
  destruct (fields e !! "description") as [s|] eqn:Es; [|discriminate Hc].
  destruct (typed_amount e a Ht Ea) as [q ->].
  pose proof (typed_lookup e "category" c Ht Ec) as Tc.
  pose proof (typed_lookup e "description" s Ht Es) as Ts.
  destruct c as [c| |]; try discriminate Tc; try discriminate Hp.
  destruct s as [s| |]; try discriminate Ts; try discriminate Hp.
  reflexivity.
Qed.


Lemma forallb_perm {A : Type} (f : A -> bool) (l l' : list A) :
  Permutation l l' -> forallb f l = true -> forallb f l' = true.
Proof.
  intros P. rewrite !forallb_forall. intros H x Hx. apply H.
  apply list_elem_of_In. rewrite P. by apply list_elem_of_In.
Qed.

(** The sort of [view_expenses] on records that all have a text date. *)
Lemma sorted_by_date (es : list expense) :
  forallb has_text_date es = true ->
  exists ordered,
    sorted_reverse value_ltb (getitem "date") es = Ok ordered
    /\ Permutation es ordered
    /\ StronglySorted (fun x y => String.ltb (date_text x) (date_text y) = false) ordered
    /\ (forall s, List.filter (fun e => String.eqb (date_text e) s) ordered
                  = List.filter (fun e => String.eqb (date_text e) s) es).
Proof.
  intros Hd. unfold sorted_reverse. rewrite (keyed_by_date es Hd). cbn [bind].
  rewrite sort_desc_text.
  destruct (sort_desc_perm String.ltb (map (fun e => (date_text e, e)) es)) as (s & Es & P).
  rewrite Es. cbn [bind].
  pose proof (sort_desc_sorted String.ltb string_ltb_asym string_ltb_cotrans _ _ Es) as S.
  assert (Forall (fun p => fst p = date_text (snd p)) s) as Hk.
  { rewrite <- P. apply Forall_forall. intros p Hin.
    apply list_elem_of_In, in_map_iff in Hin as (x & <- & _). reflexivity. }
  assert (Permutation es (map snd s)) as Pe.
  { apply (Permutation_map snd) in P. rewrite map_map in P. simpl in P.
    by rewrite map_id in P. }
  rewrite map_map. simpl. change (map (fun x : string * expense => snd x) s) with (map snd s).
  exists (map snd s). split; [reflexivity|]. split; [exact Pe|]. split.
  - clear Es P Pe. induction S as [|p s S IH Hps]; simpl; constructor.
    + apply IH. by apply Forall_inv_tail in Hk.
    + apply Forall_inv in Hk as Hkp. apply Forall_inv_tail in Hk.
      apply Forall_map, Forall_forall. intros q Hq'.
      rewrite Forall_forall in Hps, Hk. specialize (Hps q Hq'). specialize (Hk q Hq').
      unfold descending in Hps. by rewrite Hkp, Hk in Hps.
  - intros d.
    pose proof (sort_desc_stable String.ltb (fun p : string * expense => String.eqb (fst p) d)
                  _ _
                  (fun y z Hy Hz => ltac:(apply String.eqb_eq in Hy, Hz;
                                          rewrite Hy, Hz; apply string_ltb_irrefl))
                  Es) as St.
    assert (forall l : list (string * expense),
              Forall (fun p => fst p = date_text (snd p)) l ->
              List.filter (fun e => String.eqb (date_text e) d) (map snd l)
              = map snd (List.filter (fun p => String.eqb (fst p) d) l)) as Hf.
    { induction 1 as [|p l Hp' _ IH]; simpl; [reflexivity|].
      rewrite <- Hp'. destruct (String.eqb (fst p) d); simpl; by rewrite IH. }
    rewrite (Hf s Hk), St.
    rewrite <- Hf by (apply Forall_forall; intros p Hin;
                      apply list_elem_of_In, in_map_iff in Hin as (x & <- & _); reflexivity).
    rewrite map_map. simpl. by rewrite map_id.
Qed.


Lemma show_line_unprintable (e : expense) :
  typed e = true -> has_text_date e = true -> printable e = false ->
  show_line e = Raise TypeError.
Proof.
  intros Ht Hd Hp. unfold show_line. fold (complete e).
  unfold printable in Hp. apply orb_false_elim in Hp as [Hc Hp].
  apply negb_false_iff in Hc. rewrite Hc.
  unfold complete, fieldnames, has in Hc. simpl in Hc.
  unfold fieldnames in Hp. simpl in Hp.
  unfold has_text_date in Hd. unfold getitem.
  destruct (fields e !! "date") as [[d| |]|]; try discriminate Hd.
  destruct (fields e !! "category") as [c|] eqn:Ec; [|discriminate Hc].
  destruct (fields e !! "amount") as [a|] eqn:Ea; [|discriminate Hc].
  destruct (fields e !! "description") as [s|] eqn:Es; [|discriminate Hc].
  destruct (typed_amount e a Ht Ea) as [q ->].
  pose proof (typed_lookup e "category" c Ht Ec) as Tc.
  pose proof (typed_lookup e "description" s Ht Es) as Ts.
  destruct c as [c| |]; try discriminate Tc; [|reflexivity].
  destruct s as [s| |]; try discriminate Ts; [discriminate Hp|reflexivity].
Qed.

Lemma mapM_show_raises (es : list expense) :
  forallb typed es = true -> forallb has_text_date es = true ->
  existsb (fun e => negb (printable e)) es = true ->
  mapM show_line es = Raise TypeError.
Proof.
  induction es as [|e es IH]; simpl; [discriminate|].
  intros Ht Hd Hx.
  apply andb_prop in Ht as [Ht Hts]. apply andb_prop in Hd as [Hd Hds].
  destruct (printable e) eqn:Hp.
  - rewrite (show_line_printable e Ht Hd Hp). simpl in *. by rewrite (IH Hts Hds Hx).
  - by rewrite (show_line_unprintable e Ht Hd Hp).
Qed.

Lemma existsb_perm {A : Type} (f : A -> bool) (l l' : list A) :
  Permutation l l' -> existsb f l = true -> existsb f l' = true.
Proof.
  intros P. rewrite !existsb_exists. intros (x & Hx & Hf). exists x. split; [|exact Hf].
  apply list_elem_of_In. rewrite <- P. by apply list_elem_of_In.
Qed.

(** X12: a record that has all four fields, one of them holding [None] (a
    row of the file that stops before its last cell), makes [view_expenses]
    raise [TypeError] when it comes to format that line: the record is not
    reported as incomplete, and the call does not return a listing. *)
Theorem view_raises_on_none_cell (es : list expense) (b : option Q) :
  forallb typed es = true ->
  forallb has_text_date es = true ->
  existsb (fun e => negb (printable e)) es = true ->
  view_expenses (mktracker es b) = Raise TypeError.
Proof.
  intros Ht Hd Hx. unfold view_expenses. cbn [expenses].
  destruct es as [|e0 es0] eqn:Hes; [discriminate Hx|]. rewrite <- Hes in *.
  destruct (sorted_by_date es Hd) as (ordered & Es & P & _).
  rewrite Es. cbn [bind].
  rewrite (mapM_show_raises ordered); [reflexivity| | |].
  - by eapply forallb_perm.
  - by eapply forallb_perm.
  - by eapply existsb_perm.
Qed.

(** ** Adding and tracking *)



(** ** The date that [today] stores *)

Lemma digit_digit_char (n : Z) : digit (digit_char n) = Some (n mod 10).
Proof.
  unfold digit_char.
  assert (0 <= n mod 10 < 10) as H by (apply Z.mod_pos_bound; lia).
  remember (n mod 10) as r eqn:E. clear E.
  assert (r = 0 \/ r = 1 \/ r = 2 \/ r = 3 \/ r = 4 \/ r = 5 \/ r = 6 \/ r = 7 \/ r = 8 \/ r = 9)
    as Hr by lia.
  repeat (destruct Hr as [Hr | Hr]; [subst r; reflexivity|]). subst r. reflexivity.
Qed.

Lemma first_match_one {B : Type} (n : Z) (rest : list ascii)
  (k : Z -> list ascii -> option B) :
  first_match [(n, rest)] k = k n rest.
Proof. simpl. by destruct (k n rest). Qed.

Lemma year_written {B : Type} (y : Z) (rest : list ascii) (k : Z -> list ascii -> option B) :
  0 <= y <= 9999 ->
  first_match (dir_Y (pad4 y ++ rest)) k = k y rest.
Proof.
  intros Hy. unfold pad4, dir_Y. cbn [app]. rewrite !digit_digit_char.
  rewrite first_match_one. f_equal. Z.to_euclidean_division_equations. lia.
Qed.

Lemma month_written {B : Type} (m : Z) (rest : list ascii) (k : Z -> list ascii -> option B)
  (b : B) :
  1 <= m <= 12 ->
  k m (dash :: rest) = Some b ->
  first_match (dir_m (pad2 m ++ dash :: rest)) k = Some b.
Proof.
  intros Hm Hk.
  assert (m = 1 \/ m = 2 \/ m = 3 \/ m = 4 \/ m = 5 \/ m = 6 \/ m = 7 \/ m = 8 \/ m = 9
          \/ m = 10 \/ m = 11 \/ m = 12) as E by lia.
  clear Hm.
  repeat (destruct E as [E | E]; [subst m; cbv in Hk |- *; by rewrite Hk|]).
  subst m; cbv in Hk |- *; by rewrite Hk.
Qed.

Lemma day_written {B : Type} (d : Z) (b : B) :
  1 <= d <= 31 ->
  first_match (dir_d (pad2 d)) (fun d' s => found (b, d') s) = Some ((b, d), []).
Proof.
  intros Hd.
  assert (d = 1 \/ d = 2 \/ d = 3 \/ d = 4 \/ d = 5 \/ d = 6 \/ d = 7 \/ d = 8 \/ d = 9
          \/ d = 10 \/ d = 11 \/ d = 12 \/ d = 13 \/ d = 14 \/ d = 15 \/ d = 16 \/ d = 17
          \/ d = 18 \/ d = 19 \/ d = 20 \/ d = 21 \/ d = 22 \/ d = 23 \/ d = 24 \/ d = 25
          \/ d = 26 \/ d = 27 \/ d = 28 \/ d = 29 \/ d = 30 \/ d = 31) as E by lia.
  repeat (destruct E as [E | E]; [subst d; reflexivity|]).
  subst d; reflexivity.
Qed.

Lemma days_in_month_max (y m : Z) : days_in_month y m <= 31.
Proof.
  unfold days_in_month. destruct (m =? 2); [destruct (is_leap y); lia|].
  destruct ((m =? 4) || (m =? 6) || (m =? 9) || (m =? 11)); lia.
Qed.

(** X13: the text that [strftime] writes for a date is read back by
    [strptime] as that date; so an expense entered with [today] carries a
    date that the month filter counts in the month of the day it was
    entered. *)
Theorem today_is_in_its_month (now : date) (c : string) (a : Q) (s : string) :
  valid_date now = true ->
  1000 <= year now ->
  strptime_Ymd (strftime_Ymd now) = Ok now
  /\ date_in_month (year now) (month now) (new_expense (strftime_Ymd now) c a s) = true.
Proof.
  intros Hv Hy.
  assert (strptime_Ymd (strftime_Ymd now) = Ok now) as E.
  { destruct now as [y m d]. unfold valid_date in Hv. cbn [year month day] in *.
    destruct (make_date y m d) as [dt|] eqn:Em; [|discriminate Hv].
    destruct (make_date_valid _ _ _ _ Em) as (-> & Hyr & Hm & Hd).
    unfold strptime_Ymd, strftime_Ymd. rewrite list_ascii_of_string_of_list_ascii.
    cbn [year month day].
    rewrite year_written by lia.
    change (lit dash ([dash] ++ pad2 m ++ [dash] ++ pad2 d) ?k)
      with (k (pad2 m ++ dash :: pad2 d)).
    cbv beta.
    rewrite (month_written m (pad2 d) _ (y, m, d, [])); [exact Em|lia|].
    change (lit dash (dash :: pad2 d) ?k) with (k (pad2 d)). cbv beta.
    apply (day_written d (y, m)). pose proof (days_in_month_max y m). lia. }
  split; [exact E|].
  unfold date_in_month.
  replace (fields (new_expense (strftime_Ymd now) c a s) !! "date")
    with (Some (VStr (strftime_Ymd now))) by reflexivity.
  rewrite E. by rewrite !Z.eqb_refl.
Qed.

(** ** Date texts and the calendar *)

Lemma digit_char_mod (n : Z) : digit_char (n mod 10) = digit_char n.
Proof. unfold digit_char. by rewrite Z.mod_mod. Qed.

Lemma ascii_compare_digits (a b : Z) :
  0 <= a <= 9 -> 0 <= b <= 9 ->
  Ascii.compare (digit_char a) (digit_char b) = Z.compare a b.
Proof.
  intros Ha Hb.
  assert (a = 0 \/ a = 1 \/ a = 2 \/ a = 3 \/ a = 4 \/ a = 5 \/ a = 6 \/ a = 7 \/ a = 8 \/ a = 9)
    as Ea by lia.
  assert (b = 0 \/ b = 1 \/ b = 2 \/ b = 3 \/ b = 4 \/ b = 5 \/ b = 6 \/ b = 7 \/ b = 8 \/ b = 9)
    as Eb by lia.
  clear Ha Hb.
  repeat (destruct Ea as [Ea | Ea]; [subst a;
    repeat (destruct Eb as [Eb | Eb]; [subst b; reflexivity|]); subst b; reflexivity|]).
  subst a. repeat (destruct Eb as [Eb | Eb]; [subst b; reflexivity|]); subst b; reflexivity.
Qed.

Lemma pad4_digits (y : Z) :
  0 <= y <= 9999 ->
  exists a b c e,
    0 <= a <= 9 /\ 0 <= b <= 9 /\ 0 <= c <= 9 /\ 0 <= e <= 9
    /\ y = 1000 * a + 100 * b + 10 * c + e
    /\ pad4 y = [digit_char a; digit_char b; digit_char c; digit_char e].
Proof.
  intros Hy.
  exists ((y / 1000) mod 10), ((y / 100) mod 10), ((y / 10) mod 10), (y mod 10).
  repeat split; try (Z.to_euclidean_division_equations; lia).
  unfold pad4. by rewrite !digit_char_mod.
Qed.

Lemma pad2_digits (n : Z) :
  0 <= n <= 99 ->
  exists a b, 0 <= a <= 9 /\ 0 <= b <= 9 /\ n = 10 * a + b
    /\ pad2 n = [digit_char a; digit_char b].
Proof.
  intros Hn. exists ((n / 10) mod 10), (n mod 10).
  repeat split; try (Z.to_euclidean_division_equations; lia).
  unfold pad2. by rewrite !digit_char_mod.
Qed.

Lemma earlier_spec (d1 d2 : date) :
  earlier d1 d2 = true <->
  year d1 < year d2
  \/ (year d1 = year d2
      /\ (month d1 < month d2 \/ (month d1 = month d2 /\ day d1 < day d2))).
Proof.
  unfold earlier.
  rewrite !orb_true_iff, !andb_true_iff, !orb_true_iff, !andb_true_iff,
    !Z.ltb_lt, !Z.eqb_eq. tauto.
Qed.

(** X14: for two dates of four-digit years, the texts that [strftime] writes
    compare as the dates do: the order of [view_expenses], which compares
    the texts, is the order of the calendar on such texts. *)
Theorem date_text_order (d1 d2 : date) :
  valid_date d1 = true -> valid_date d2 = true ->
  1000 <= year d1 -> 1000 <= year d2 ->
  String.ltb (strftime_Ymd d1) (strftime_Ymd d2) = earlier d1 d2.
Proof.
  intros V1 V2 _ _. unfold valid_date in V1, V2.
  destruct (make_date (year d1) (month d1) (day d1)) as [x1|] eqn:E1; [|discriminate V1].
  destruct (make_date (year d2) (month d2) (day d2)) as [x2|] eqn:E2; [|discriminate V2].
  apply make_date_valid in E1 as (_ & Hy1 & Hm1 & Hd1).
  apply make_date_valid in E2 as (_ & Hy2 & Hm2 & Hd2).
  pose proof (days_in_month_max (year d1) (month d1)).
  pose proof (days_in_month_max (year d2) (month d2)).
  apply eq_true_iff_eq. rewrite earlier_spec.
  destruct d1 as [y1 m1 dd1], d2 as [y2 m2 dd2]. cbn [year month day] in *.
  unfold strftime_Ymd. cbn [year month day].
  destruct (pad4_digits y1) as (a1 & b1 & c1 & e1 & ? & ? & ? & ? & -> & ->); [lia|].
  destruct (pad4_digits y2) as (a2 & b2 & c2 & e2 & ? & ? & ? & ? & -> & ->); [lia|].
  destruct (pad2_digits m1) as (p1 & q1 & ? & ? & -> & ->); [lia|].
  destruct (pad2_digits m2) as (p2 & q2 & ? & ? & -> & ->); [lia|].
  destruct (pad2_digits dd1) as (r1 & s1 & ? & ? & -> & ->); [lia|].
  destruct (pad2_digits dd2) as (r2 & s2 & ? & ? & -> & ->); [lia|].
  unfold String.ltb. cbn [app string_of_list_ascii String.compare].
  rewrite !ascii_compare_digits by lia.
  replace (Ascii.compare dash dash) with Eq by reflexivity.
  destruct (Z.compare_spec a1 a2); [|split; [lia|done]|split; [done|lia]].
  destruct (Z.compare_spec b1 b2); [|split; [lia|done]|split; [done|lia]].
  destruct (Z.compare_spec c1 c2); [|split; [lia|done]|split; [done|lia]].
  destruct (Z.compare_spec e1 e2); [|split; [lia|done]|split; [done|lia]].
  destruct (Z.compare_spec p1 p2); [|split; [lia|done]|split; [done|lia]].
  destruct (Z.compare_spec q1 q2); [|split; [lia|done]|split; [done|lia]].
  destruct (Z.compare_spec r1 r2); [|split; [lia|done]|split; [done|lia]].
  destruct (Z.compare_spec s1 s2); [|split; [lia|done]|split; [done|lia]].
  split; [done|lia].
Qed.

(** ** Loading plain rows, and the retries of [add_expense] *)

Section Plain.
Variable float_of_string : string -> option Q.

Lemma plain_row_loaded (cells : list string) (e : expense) :
  plain_row float_of_string cells = Some e ->
  cells <> [] /\ convert_amount float_of_string (dict_row fieldnames cells) = Ok e.
Proof.
  unfold plain_row.
  destruct cells as [|d [|c [|a [|s [|? ?]]]]]; try discriminate.
  destruct (float_of_string a) as [q|] eqn:Ef; [|discriminate].
  intros [= <-]. split; [intros [=]|].
  unfold convert_amount, dict_row. cbn [fields rest].
  rewrite zip_cells_fieldnames.
  rewrite lookup_insert_ne by (intros [=]). rewrite lookup_insert_eq.
  rewrite Ef. reflexivity.
Qed.

Lemma read_rows_plain (rows : table) (es acc : list expense) :
  Forall2 (fun cells e => plain_row float_of_string cells = Some e) rows es ->
  read_rows float_of_string fieldnames rows acc = (acc ++ es, None).
Proof.
  intros H. revert acc. induction H as [|cells e rows es Hc _ IH]; intros acc; simpl.
  - by rewrite app_nil_r.
  - apply plain_row_loaded in Hc as [Hne Hc].
    destruct cells as [|c0 cells]; [done|]. rewrite Hc, IH. by rewrite <- app_assoc.
Qed.

(** X10: [load_expenses] takes the rows as they are: under the header of
    the four field names, each row of four cells whose third cell is a
    number becomes the record of these cells, whatever the date text says
    and whatever the sign of the amount; the records replace the ledger, in
    the order of the file. *)
Theorem load_plain_rows (t : tracker) (d : disk) (rows : table) (es : list expense) :
  expenses_csv d = Holds (fieldnames :: rows) ->
  Forall2 (fun cells e => plain_row float_of_string cells = Some e) rows es ->
  expenses (fst (load_expenses float_of_string t d)) = es.
Proof.
  intros Hd H. unfold load_expenses. rewrite Hd.
  rewrite (read_rows_plain rows es [] H). simpl. by destruct (budget_txt d).
Qed.


End Plain.

(** ** The further properties on worked examples *)

Lemma strptime_mY_accepts_witness :
  month_year_text [1%nat; 2%nat] "8-2025" = Some (2025, 8)
  /\ 1 <= 2025
  /\ strptime_mY "8-2025" = Ok (mkdate 2025 8 1).
Proof.
  split; [reflexivity|]. split; [lia|].
  apply (strptime_mY_accepts "8-2025" 2025 8); [reflexivity|lia].
Defined.






Lemma reachable_typed_witness :
  reachable Decimal.float_of_string Decimal.str_of_float
    (mkdisk (Holds short_table) Absent) (mktracker [cut; bus] None)
    (mkdisk (Holds short_table) Absent)
  /\ forallb typed (expenses (mktracker [cut; bus] None)) = true.
Proof.
  assert (reachable Decimal.float_of_string Decimal.str_of_float
            (mkdisk (Holds short_table) Absent) (mktracker [cut; bus] None)
            (mkdisk (Holds short_table) Absent)) as R.
  { apply (reach_turn _ _ (mkdisk (Holds short_table) Absent) (mktracker [cut] None)
             (mkdisk (Holds short_table) Absent) (mkdate 2025 8 20)
             ["1"; "2025-08-15"; "Transport"; "10"; "bus"] _ _ [] true).
    - apply (reach_init Decimal.float_of_string Decimal.str_of_float
               (mkdisk (Holds short_table) Absent)).
    - vm_compute; reflexivity. }
  split; [exact R|].
  exact (reachable_typed Decimal.float_of_string Decimal.str_of_float _ _ _ R).
Defined.

Lemma save_stops_at_wrong_fields_witness :
  expenses (mktracker [lunch; noted; bus] None) = [lunch] ++ noted :: [bus]
  /\ forallb (fun e => negb (wrong_fields e)) [lunch] = true
  /\ wrong_fields noted = true
  /\ writable (expenses_csv (mkdisk (Holds damaged_table) Absent)) = true
  /\ save_expenses Decimal.str_of_float (mktracker [lunch; noted; bus] None)
       (mkdisk (Holds damaged_table) Absent)
     = (mkdisk (Holds (fieldnames :: map (written_row Decimal.str_of_float) [lunch]))
          (budget_txt (mkdisk (Holds damaged_table) Absent)), false).
Proof.
  split; [reflexivity|]. split; [vm_compute; reflexivity|].
  split; [vm_compute; reflexivity|]. split; [reflexivity|].
  apply (save_stops_at_wrong_fields Decimal.str_of_float (mktracker [lunch; noted; bus] None)
           (mkdisk (Holds damaged_table) Absent) [lunch] [bus] noted).
  - reflexivity.
  - vm_compute; reflexivity.
  - vm_compute; reflexivity.
  - reflexivity.
Defined.


Lemma load_plain_rows_witness :
  expenses_csv (mkdisk (Holds (fieldnames :: [["2025-13-40"; "Food"; "-5"; "?"]])) Absent)
  = Holds (fieldnames :: [["2025-13-40"; "Food"; "-5"; "?"]])
  /\ Forall2 (fun cells e => plain_row Decimal.float_of_string cells = Some e)
       [["2025-13-40"; "Food"; "-5"; "?"]] [new_expense "2025-13-40" "Food" (-50 # 10) "?"]
  /\ expenses (fst (load_expenses Decimal.float_of_string fresh
                      (mkdisk (Holds (fieldnames :: [["2025-13-40"; "Food"; "-5"; "?"]]))
                         Absent)))
     = [new_expense "2025-13-40" "Food" (-50 # 10) "?"].
Proof.
  assert (Forall2 (fun cells e => plain_row Decimal.float_of_string cells = Some e)
            [["2025-13-40"; "Food"; "-5"; "?"]]
            [new_expense "2025-13-40" "Food" (-50 # 10) "?"]) as H.
  { constructor; [vm_compute; reflexivity|constructor]. }
  split; [reflexivity|]. split; [exact H|].
  apply (load_plain_rows Decimal.float_of_string fresh
           (mkdisk (Holds (fieldnames :: [["2025-13-40"; "Food"; "-5"; "?"]])) Absent)
           [["2025-13-40"; "Food"; "-5"; "?"]] _ eq_refl H).
Defined.


Lemma view_raises_on_none_cell_witness :
  forallb typed [lunch; cut] = true
  /\ forallb has_text_date [lunch; cut] = true
  /\ existsb (fun e => negb (printable e)) [lunch; cut] = true
  /\ view_expenses (mktracker [lunch; cut] None) = Raise TypeError.
Proof.
  split; [vm_compute; reflexivity|]. split; [vm_compute; reflexivity|].
  split; [vm_compute; reflexivity|].
  apply (view_raises_on_none_cell [lunch; cut] None); vm_compute; reflexivity.
Defined.


Lemma today_is_in_its_month_witness :
  valid_date (mkdate 2024 2 29) = true
  /\ 1000 <= year (mkdate 2024 2 29)
  /\ strptime_Ymd (strftime_Ymd (mkdate 2024 2 29)) = Ok (mkdate 2024 2 29)
  /\ date_in_month (year (mkdate 2024 2 29)) (month (mkdate 2024 2 29))
       (new_expense (strftime_Ymd (mkdate 2024 2 29)) "Food" (425 # 10) "lunch") = true.
Proof.
  split; [reflexivity|]. split; [simpl; lia|].
  apply (today_is_in_its_month (mkdate 2024 2 29) "Food" (425 # 10) "lunch");
    [reflexivity|simpl; lia].
Defined.

Lemma date_text_order_witness :
  valid_date (mkdate 2025 9 30) = true
  /\ valid_date (mkdate 2025 10 1) = true
  /\ 1000 <= year (mkdate 2025 9 30)
  /\ 1000 <= year (mkdate 2025 10 1)
  /\ String.ltb (strftime_Ymd (mkdate 2025 9 30)) (strftime_Ymd (mkdate 2025 10 1))
     = earlier (mkdate 2025 9 30) (mkdate 2025 10 1).
Proof.
  split; [reflexivity|]. split; [reflexivity|]. split; [simpl; lia|]. split; [simpl; lia|].
  apply (date_text_order (mkdate 2025 9 30) (mkdate 2025 10 1));
    [reflexivity|reflexivity|simpl; lia|simpl; lia].
Defined.
